(** * new_web.py: a file-serving web server

    A shallow embedding of [in_progress/new_web.py] (Python 2).  Python 2
    [str] values are byte strings; they are modelled by [string], whose
    characters are the 256 [ascii] values.  Dictionaries with string keys
    are [gmap string string].  The interpreter and library operations the
    script calls ([str.split], [str.partition], [str.lower], [str.strip],
    [in], [os.path.splitext], [os.path.exists], [open]) are modelled for a
    POSIX host and the default "C" locale.

    The loop of [main] is modelled from the bytes [recv] returned onwards:
    [serve] is one pass of the loop, [main] the loop over the connections
    accepted.  Writing to the socket and to standard output is taken to
    succeed, and a file that exists is taken to be readable; what remains
    of the outside world is the file system, a function from path strings
    to what they name. *)

From Stdlib Require Import Ascii ZArith DecimalString DecimalNat.
From stdpp Require Import gmap strings list fin_maps.

Local Open Scope Z_scope.

(** ** Byte-string operations of the Python 2 runtime *)

Module Py.

Definition LF : ascii := "010"%char.
Definition CR : ascii := "013"%char.
Definition NUL : ascii := "000"%char.

(** [s.split(sep)] for a one-character separator: cut at every
    occurrence, empty fields kept, never an empty list. *)
Fixpoint split (sep : ascii) (s : string) : list string :=
  match s with
  | EmptyString => [EmptyString]
  | String c s' =>
      if Ascii.eqb c sep then EmptyString :: split sep s'
      else match split sep s' with
           | [] => [String c EmptyString]
           | w :: ws => String c w :: ws
           end
  end.

(** [s.partition(sep)]: the text before the first separator, the
    separator itself (empty when there is none), and the text after. *)
Fixpoint partition (sep : ascii) (s : string) : string * string * string :=
  match s with
  | EmptyString => (EmptyString, EmptyString, EmptyString)
  | String c s' =>
      if Ascii.eqb c sep then (EmptyString, String sep EmptyString, s')
      else let '(before, found, after) := partition sep s' in
           (String c before, found, after)
  end.

(** [s.split()]: maximal runs of non-whitespace bytes. *)
Definition split_ws (s : string) : list string := String.words s.

Definition lower_char (c : ascii) : ascii :=
  let n := N_of_ascii c in
  if ((65 <=? n)%N && (n <=? 90)%N)%bool then ascii_of_N (n + 32) else c.

(** [s.lower()] *)
Fixpoint lower (s : string) : string :=
  match s with
  | EmptyString => EmptyString
  | String c s' => String (lower_char c) (lower s')
  end.

Fixpoint lstrip (s : string) : string :=
  match s with
  | EmptyString => EmptyString
  | String c s' => if Ascii.is_space c then lstrip s' else s
  end.

Fixpoint rstrip (s : string) : string :=
  match s with
  | EmptyString => EmptyString
  | String c s' =>
      match rstrip s' with
      | EmptyString => if Ascii.is_space c then EmptyString
                       else String c EmptyString
      | r => String c r
      end
  end.

(** [s.strip()] *)
Definition strip (s : string) : string := rstrip (lstrip s).

(** [x in s]: [x] occurs in [s] as a contiguous run of bytes. *)
Fixpoint contains (x s : string) : bool :=
  String.prefix x s
  || match s with
     | EmptyString => false
     | String _ s' => contains x s'
     end.

Fixpoint has_char (c : ascii) (s : string) : bool :=
  match s with
  | EmptyString => false
  | String a s' => Ascii.eqb a c || has_char c s'
  end.

Fixpoint rfind_from (c : ascii) (s : string) (i found : Z) : Z :=
  match s with
  | EmptyString => found
  | String a s' =>
      rfind_from c s' (i + 1) (if Ascii.eqb a c then i else found)
  end.

(** [s.rfind(c)]: index of the last occurrence of [c], or -1. *)
Definition rfind (c : ascii) (s : string) : Z := rfind_from c s 0 (-1).

(** [s[:i]] and [s[i:]] for [0 <= i]. *)
Definition slice_to (i : Z) (s : string) : string :=
  String.substring 0 (Z.to_nat i) s.
Definition slice_from (i : Z) (s : string) : string :=
  String.substring (Z.to_nat i) (String.length s - Z.to_nat i) s.

(** [s[i]] for an index known to be in range. *)
Definition char_at (i : Z) (s : string) : option ascii :=
  String.get (Z.to_nat i) s.

(** [str(n)] / ['{}'.format(n)] for a length. *)
Definition str_of_nat (n : nat) : string :=
  NilEmpty.string_of_uint (Nat.to_uint n).

End Py.

(** ** [os.path] and the file system, as the script sees them *)

Module OsPath.

Definition SEP : ascii := "/"%char.
Definition EXTSEP : ascii := "."%char.

(** The loop of [genericpath._splitext] that skips the leading dots of
    the last path component; [n] bounds the iterations by the distance
    between the two indices. *)
Fixpoint splitext_scan (p : string) (dotIndex filenameIndex : Z) (n : nat)
  : string * string :=
  match n with
  | O => (p, EmptyString)
  | S n' =>
      if filenameIndex <? dotIndex then
        if bool_decide (Py.char_at filenameIndex p = Some EXTSEP)
        then splitext_scan p dotIndex (filenameIndex + 1) n'
        else (Py.slice_to dotIndex p, Py.slice_from dotIndex p)
      else (p, EmptyString)
  end.

(** [os.path.splitext(p)] of [posixpath]. *)
Definition splitext (p : string) : string * string :=
  let sepIndex := Py.rfind SEP p in
  let dotIndex := Py.rfind EXTSEP p in
  if sepIndex <? dotIndex
  then splitext_scan p dotIndex (sepIndex + 1)
         (Z.to_nat (dotIndex - (sepIndex + 1)))
  else (p, EmptyString).

End OsPath.

(** What a path names: a regular file with its bytes, or a directory. *)
Inductive node : Type :=
  | File (contents : string)
  | Directory.

(** The file system as path resolution presents it: every path string
    names a node or nothing. *)
Definition filesystem : Type := string → option node.

(** ** Exceptions, output and the interpreter state *)

Inductive exn : Type :=
  | UnboundLocalError (name : string)
  | IndexError
  | ValueError
  | KeyError (key : string)
  | TypeError
  | IOError.

Inductive result (A : Type) : Type :=
  | Ok (a : A)
  | Raise (e : exn).
Arguments Ok {A} a.
Arguments Raise {A} e.

Inductive py_value : Type :=
  | VInt (n : Z)
  | VStr (s : string)
  | VDict (d : gmap string string).

(** Everything one pass of the loop does to the outside world. *)
Inductive event : Type :=
  | Print (v : py_value)
  | Stat (path : string)
  | Open (path : string)
  | SendAll (data : string)
  | Close.

(** The variables of [main] that survive from one pass of the loop to
    the next.  [cookies] is unbound until its assignment has run once. *)
Record locals : Type := mkLocals {
  REQUESTS : Z;
  cookies : option (gmap string string)
}.

Definition initial : locals := {| REQUESTS := 0; cookies := None |}.

Inductive outcome (A : Type) : Type :=
  | Normal (a : A) (l : locals)
  | Uncaught (e : exn).
Arguments Normal {A} a l.
Arguments Uncaught {A} e.

(** A computation reads and updates the locals, emits events, and either
    finishes or dies with an exception, keeping the events emitted so far. *)
Definition M (A : Type) : Type := locals → list event * outcome A.

Global Instance M_ret : MRet M := λ A a l, ([], Normal a l).
Global Instance M_bind : MBind M := λ A B f m l,
  match m l with
  | (t1, Normal a l') => let '(t2, o) := f a l' in (t1 ++ t2, o)
  | (t1, Uncaught e) => (t1, Uncaught e)
  end.

Definition emit (e : event) : M unit := λ l, ([e], Normal tt l).
Definition raise {A} (e : exn) : M A := λ l, ([], Uncaught e).
Definition lift {A} (r : result A) : M A :=
  match r with Ok a => mret a | Raise e => raise e end.
Definition get_locals : M locals := λ l, ([], Normal l l).
Definition put_locals (l' : locals) : M unit := λ _, ([], Normal tt l').

Definition print (v : py_value) : M unit := emit (Print v).
Definition sendall (data : string) : M unit := emit (SendAll data).
Definition close : M unit := emit Close.

(** [os.path.exists(path)]: a path with a NUL byte is refused by the
    [stat] wrapper with a [TypeError], which [exists] does not catch. *)
Definition os_path_exists (fs : filesystem) (path : string) : M bool :=
  if Py.has_char Py.NUL path then raise TypeError
  else emit (Stat path);; mret (bool_decide (is_Some (fs path))).

(** [open(path)] followed by [read()]. *)
Definition open_read (fs : filesystem) (path : string) : M string :=
  emit (Open path);;
  match fs path with
  | Some (File contents) => mret contents
  | Some Directory | None => raise IOError
  end.

(** ** The script *)

Definition RESPONSE_TEMPLATE (headers content : string) : string :=
  "HTTP/1.1 200 OK" +:+ String Py.LF headers
    +:+ String Py.LF (String Py.LF content).

Fixpoint parse_header_lines (lines : list string) (headers : gmap string string)
  : gmap string string :=
  match lines with
  | [] => headers
  | line :: rest =>
      if String.eqb line (String Py.CR EmptyString) then headers
      else
        let header_line := Py.partition ":" line in
        parse_header_lines rest
          (<[Py.lower header_line.1.1 := Py.strip header_line.2]> headers)
  end.

Definition parse_headers (request : string) : gmap string string :=
  parse_header_lines (tail (Py.split Py.LF request)) ∅.

Definition is_content_type_negotiable (accepts extension : string) : bool :=
  Py.contains extension accepts || String.eqb accepts "*/*".

(** The comprehension
    [{e.split('=')[0]: e.split('=')[1] for e in entries}]. *)
Fixpoint cookie_dict (entries : list string) (acc : gmap string string)
  : result (gmap string string) :=
  match entries with
  | [] => Ok acc
  | e :: rest =>
      match Py.split "=" e with
      | name :: value :: _ => cookie_dict rest (<[name := value]> acc)
      | _ => Raise IndexError
      end
  end.

Definition parse_cookies (header : string) : result (gmap string string) :=
  cookie_dict (Py.split ";" header) ∅.

Definition start_line (request : string) : string :=
  hd EmptyString (Py.split Py.LF request).

Definition extension_of (path : string) : string :=
  match (OsPath.splitext path).2 with
  | EmptyString => EmptyString
  | String _ ext => ext
  end.

Definition NOT_ACCEPTABLE : string :=
  "HTTP/1.1 406 Not Acceptable" +:+ String Py.LF EmptyString.
Definition NOT_FOUND : string :=
  "HTTP/1.1 404 Not Found" +:+ String Py.LF EmptyString.

(** The three-way choice at the end of the loop body. *)
Definition respond (fs : filesystem) (headers : gmap string string)
    (path extension : string) : M unit :=
  match headers !! "accept" with
  | None => sendall NOT_ACCEPTABLE
  | Some accepts =>
      if negb (is_content_type_negotiable accepts extension)
      then sendall NOT_ACCEPTABLE
      else
        found ← os_path_exists fs path;
        if negb found then sendall NOT_FOUND
        else
          file_contents ← open_read fs path;
          let content_length := String.length file_contents in
          sendall (RESPONSE_TEMPLATE
                     ("Content-Length: " +:+ Py.str_of_nat content_length)
                     file_contents)
  end.

(** One pass of the [while True] loop of [main], from the request that
    [recv] returned to [connection.close()]. *)
Definition serve (document_root : string) (fs : filesystem)
    (request : string) : M unit :=
  l ← get_locals;
  put_locals {| REQUESTS := REQUESTS l + 1; cookies := cookies l |};;
  print (VInt (REQUESTS l + 1));;
  let headers := parse_headers request in
  match headers !! "cookie" with
  | Some header =>
      c ← lift (parse_cookies header);
      l ← get_locals;
      put_locals {| REQUESTS := REQUESTS l; cookies := Some c |}
  | None => mret tt
  end;;
  l ← get_locals;
  match cookies l with
  | Some c => print (VDict c)
  | None => raise (UnboundLocalError "cookies")
  end;;
  match Py.split_ws (start_line request) with
  | [method; uri; version] =>
      let path := document_root +:+ uri in
      let extension := extension_of path in
      print (VDict headers);;
      match headers !! "user-agent" with
      | Some agent => print (VStr agent)
      | None => raise (KeyError "user-agent")
      end;;
      respond fs headers path extension;;
      close
  | _ => raise ValueError
  end.

(** The loop itself, over the connections the server gets to accept; each
    comes with the file system as it is while that request is handled. *)
Fixpoint main (document_root : string)
    (connections : list (filesystem * string)) : M unit :=
  match connections with
  | [] => mret tt
  | (fs, request) :: rest =>
      serve document_root fs request;; main document_root rest
  end.

(** ** Observations *)

(** The bytes written to the connection during a run of events. *)
Fixpoint response_of (t : list event) : string :=
  match t with
  | [] => EmptyString
  | SendAll data :: t' => data +:+ response_of t'
  | _ :: t' => response_of t'
  end.

Definition is_send (e : event) : bool :=
  match e with SendAll _ => true | _ => false end.

(** What each client receives, in order of connection.  Once an exception
    has escaped [main] there is no process left to answer. *)
Fixpoint responses (document_root : string)
    (connections : list (filesystem * string)) (l : locals) : list string :=
  match connections with
  | [] => []
  | (fs, request) :: rest =>
      let '(t, o) := serve document_root fs request l in
      response_of t ::
        match o with
        | Normal _ l' => responses document_root rest l'
        | Uncaught _ => (λ _, EmptyString) <$> rest
        end
  end.

(** The target of the request, when its start line has the three tokens
    [main] unpacks. *)
Definition three_tokens (request : string) : option (string * string * string) :=
  match Py.split_ws (start_line request) with
  | [method; uri; version] => Some (method, uri, version)
  | _ => None
  end.

(** The mapping [print cookies] finds, if the statements before it get
    that far: the one just parsed from the [cookie] header, else whatever
    an earlier pass of the loop left behind. *)
Definition cookies_read (l : locals) (request : string)
  : option (gmap string string) :=
  match parse_headers request !! "cookie" with
  | Some header =>
      match parse_cookies header with Ok c => Some c | Raise _ => None end
  | None => cookies l
  end.

(** The last path component, [posixpath.basename]. *)
Definition basename (p : string) : string :=
  Py.slice_from (Py.rfind OsPath.SEP p + 1) p.

(** [dict(pairs)]: the pairs entered from left to right, a later pair
    replacing an earlier one with the same key. *)
Definition dict_of (pairs : list (string * string)) : gmap string string :=
  foldl (λ d kv, <[kv.1 := kv.2]> d) ∅ pairs.

(** The header lines: those before the first line that is a lone
    carriage return. *)
Fixpoint header_block (lines : list string) : list string :=
  match lines with
  | [] => []
  | line :: rest =>
      if String.eqb line (String Py.CR EmptyString) then []
      else line :: header_block rest
  end.

(** One header line read as a (name, value) pair. *)
Definition header_of_line (line : string) : string * string :=
  let '(name, _, value) := Py.partition ":" line in
  (Py.lower name, Py.strip value).

(** A cookie entry read the way the comprehension reads it: the name is
    the text before the first ['='], the value the text between the first
    and the second ['=']. *)
Definition cookie_fields (e : string) : string * string :=
  let '(name, _, rest) := Py.partition "=" e in
  (name, (Py.partition "=" rest).1.1).

(** A cookie entry split on its first ['='] only, the whole remainder as
    the value: the reading of the cookie format that keeps values such as
    [a=b=c] whole, to compare [parse_cookies] with. *)
Definition cookie_split_once (e : string) : string * string :=
  let '(name, _, value) := Py.partition "=" e in (name, value).

Definition cookies_split_once (header : string) : gmap string string :=
  dict_of (cookie_split_once <$> Py.split ";" header).

(** The five ways [respond] can end. *)
Inductive respond_result (path : string) (fs : filesystem) (l : locals)
  : list event * outcome unit → Prop :=
  | Refused :
      respond_result path fs l ([SendAll NOT_ACCEPTABLE], Normal tt l)
  | BadPath :
      Py.has_char Py.NUL path = true →
      respond_result path fs l ([], Uncaught TypeError)
  | Missing :
      Py.has_char Py.NUL path = false → fs path = None →
      respond_result path fs l ([Stat path; SendAll NOT_FOUND], Normal tt l)
  | Unreadable :
      Py.has_char Py.NUL path = false → fs path = Some Directory →
      respond_result path fs l ([Stat path; Open path], Uncaught IOError)
  | Served contents :
      Py.has_char Py.NUL path = false → fs path = Some (File contents) →
      respond_result path fs l
        ([Stat path; Open path;
          SendAll (RESPONSE_TEMPLATE
                     ("Content-Length: "
                        +:+ Py.str_of_nat (String.length contents))
                     contents)],
         Normal tt l).

(** The refusal condition in the words of the specification: no [Accept]
    header, or a value that is not the wildcard and does not contain the
    extension. *)
Definition not_acceptable (headers : gmap string string) (extension : string)
  : Prop :=
  headers !! "accept" = None
  ∨ ∃ accepts, headers !! "accept" = Some accepts
               ∧ accepts ≠ "*/*" ∧ Py.contains extension accepts = false.

(** The three shapes of an answer. *)
Definition answer_shape (data : string) : Prop :=
  data = NOT_ACCEPTABLE ∨ data = NOT_FOUND
  ∨ ∃ contents,
      data = RESPONSE_TEMPLATE
               ("Content-Length: " +:+ Py.str_of_nat (String.length contents))
               contents.

(** File-system events name this path and no other. *)
Definition touches_only (path : string) (e : event) : Prop :=
  match e with
  | Stat p | Open p => p = path
  | _ => True
  end.

(** ** Sample requests and file systems *)

Module Sample.

Definition CRLF : string := String Py.CR (String Py.LF EmptyString).

(** The bytes of a request with the given start and header lines, each
    ended by CR LF, and the blank line that ends the header block. *)
Definition request_of (lines : list string) : string :=
  foldr (λ line rest, line +:+ CRLF +:+ rest) CRLF lines.

(** A document root [/srv] holding [a.txt], the empty file [empty] and
    the directory [pub]; [secret.txt] lies outside the root. *)
Definition disk : filesystem := λ path,
  if String.eqb path "/srv/a.txt" then Some (File "hello")
  else if String.eqb path "/srv/empty" then Some (File EmptyString)
  else if String.eqb path "/srv/pub" then Some Directory
  else if String.eqb path "/srv/../secret.txt" then Some (File "key")
  else None.

(** The same disk after [a.txt] has been rewritten. *)
Definition disk' : filesystem := λ path,
  if String.eqb path "/srv/a.txt" then Some (File "changed") else disk path.

(** The example of the specification: the start line, [Host: x],
    [Accept: text/plain] and the blank line, CR LF after each. *)
Definition spec_example : string :=
  request_of ["GET /a.txt HTTP/1.1"; "Host: x"; "Accept: text/plain"].

(** What a client without cookies sends. *)
Definition plain_get : string :=
  request_of ["GET /a.txt HTTP/1.1"; "User-Agent: curl"; "Accept: */*"].

(** What a client that already holds the cookie [seen=1] sends. *)
Definition get (uri : string) (accept : string) : string :=
  request_of ["GET " +:+ uri +:+ " HTTP/1.1"; "User-Agent: curl";
              "Cookie: seen=1"; "Accept: " +:+ accept].

(** Requests that leave out what [main] reads without asking. *)
Definition no_agent_no_accept : string :=
  request_of ["GET /a.txt HTTP/1.1"; "Cookie: seen=1"].

Definition no_agent_missing_file : string :=
  request_of ["GET /missing HTTP/1.1"; "Cookie: seen=1"; "Accept: */*"].

Definition two_tokens : string :=
  request_of ["GET /a.txt"; "User-Agent: curl"; "Cookie: seen=1";
              "Accept: */*"].

(** A cookie whose value ends in ['='], as base64 text does. *)
Definition token_cookie : string :=
  request_of ["GET /a.txt HTTP/1.1"; "User-Agent: curl";
              "Cookie: sid=dG9rZW4=; seen=1"; "Accept: */*"].

End Sample.

(** ** The rest of the script *)

(** [response_with_cookies(content)]: the template with a [Set-Cookie]
    header line. *)
Definition response_with_cookies (content : string) : string :=
  RESPONSE_TEMPLATE "Set-Cookie: HasVisited = 1;" content.

Definition is_close (e : event) : bool :=
  match e with Close => true | _ => false end.

(** Neither a write to the connection nor its closing. *)
Definition is_quiet (e : event) : Prop :=
  is_send e = false ∧ is_close e = false.

(** Every byte of the string is [c]. *)
Fixpoint only_char (c : ascii) (s : string) : bool :=
  match s with
  | EmptyString => true
  | String a s' => Ascii.eqb a c && only_char c s'
  end.

(** More requests to try the script on. *)
Module Probe.

(** Lines ended by a bare LF, as a hand-typed request has them. *)
Definition bare_lf : string :=
  "GET /a.txt HTTP/1.1" +:+ String Py.LF
    ("Accept: */*" +:+ String Py.LF (String Py.LF EmptyString)).

(** A target with a NUL byte in it. *)
Definition nul_target : string := "/a" +:+ String Py.NUL ".txt".

Definition trailing_semicolon : string :=
  Sample.request_of ["GET /a.txt HTTP/1.1"; "User-Agent: curl";
                     "Cookie: seen=1;"; "Accept: */*"].

Definition delete : string :=
  Sample.request_of ["DELETE /a.txt SPDY/9"; "User-Agent: curl";
                     "Cookie: seen=1"; "Accept: */*"].

End Probe.

(** ** The monad, unfolded *)

Ltac unfold_M :=
  unfold mbind, M_bind, mret, M_ret, get_locals, put_locals, print, sendall,
    close, emit, lift, raise in *.

Lemma respond_no_accept fs headers path extension l :
  headers !! "accept" = None →
  respond fs headers path extension l = ([SendAll NOT_ACCEPTABLE], Normal tt l).
Proof. intros H. unfold respond. rewrite H. reflexivity. Qed.

Lemma respond_refused fs headers path extension accepts l :
  headers !! "accept" = Some accepts →
  is_content_type_negotiable accepts extension = false →
  respond fs headers path extension l = ([SendAll NOT_ACCEPTABLE], Normal tt l).
Proof. intros H1 H2. unfold respond. rewrite H1, H2. reflexivity. Qed.

Lemma respond_negotiated fs headers path extension accepts l :
  headers !! "accept" = Some accepts →
  is_content_type_negotiable accepts extension = true →
  respond fs headers path extension l =
    if Py.has_char Py.NUL path then ([], Uncaught TypeError)
    else match fs path with
         | None => ([Stat path; SendAll NOT_FOUND], Normal tt l)
         | Some Directory => ([Stat path; Open path], Uncaught IOError)
         | Some (File contents) =>
             ([Stat path; Open path;
               SendAll (RESPONSE_TEMPLATE
                          ("Content-Length: "
                             +:+ Py.str_of_nat (String.length contents))
                          contents)],
              Normal tt l)
         end.
Proof.
  intros H1 H2. unfold respond, os_path_exists, open_read.
  rewrite H1, H2. simpl.
  destruct (Py.has_char Py.NUL path); [reflexivity|].
  unfold_M. destruct (fs path) as [[c|]|]; reflexivity.
Qed.

(** Past the four [print]s, a pass of the loop is [respond] followed by
    [connection.close()]. *)
Lemma serve_reaches_respond document_root fs request l method uri version agent c :
  three_tokens request = Some (method, uri, version) →
  parse_headers request !! "user-agent" = Some agent →
  cookies_read l request = Some c →
  serve document_root fs request l =
    let path := document_root +:+ uri in
    let '(t, o) :=
      respond fs (parse_headers request) path (extension_of path)
        {| REQUESTS := REQUESTS l + 1; cookies := Some c |} in
    ([Print (VInt (REQUESTS l + 1)); Print (VDict c);
      Print (VDict (parse_headers request)); Print (VStr agent)]
       ++ t ++ match o with Normal _ _ => [Close] | Uncaught _ => [] end,
     o).
Proof.
  unfold three_tokens, cookies_read, serve. intros Htok Hua Hck.
  destruct (Py.split_ws (start_line request)) as [|m [|u [|v [|]]]] eqn:E;
    try discriminate.
  injection Htok as -> -> ->. unfold_M. simpl. rewrite Hua.
  destruct (parse_headers request !! "cookie") as [h|] eqn:Eh; simpl.
  - destruct (parse_cookies h) as [c'|]; [|discriminate].
    injection Hck as ->. simpl.
    destruct (respond _ _ _ _ _) as [t [[] l'|e]]; simpl;
      rewrite ?app_nil_r; reflexivity.
  - rewrite Hck. simpl.
    destruct (respond _ _ _ _ _) as [t [[] l'|e]]; simpl;
      rewrite ?app_nil_r; reflexivity.
Qed.

(** ** Byte-string facts *)

Section strings.
Implicit Types (s x : string) (c sep : ascii).

(** [split] cuts where [partition] cuts, and goes on behind the
    separator. *)
Lemma split_partition sep s :
  Py.split sep s =
    let '(before, found, after) := Py.partition sep s in
    before :: match found with
              | EmptyString => []
              | String _ _ => Py.split sep after
              end.
Proof.
  induction s as [|c s IH]; simpl; [done|].
  destruct (Ascii.eqb c sep) eqn:E; [done|].
  rewrite IH. by destruct (Py.partition sep s) as [[b f] a].
Qed.

Lemma partition_found sep s :
  (Py.partition sep s).1.2 =
    if Py.has_char sep s then String sep EmptyString else EmptyString.
Proof.
  induction s as [|c s IH]; simpl; [done|].
  destruct (Ascii.eqb c sep); simpl; [done|].
  destruct (Py.partition sep s) as [[b f] a]. exact IH.
Qed.

Lemma partition_absent sep s :
  Py.has_char sep s = false →
  Py.partition sep s = (s, EmptyString, EmptyString).
Proof.
  induction s as [|c s IH]; simpl; [done|].
  destruct (Ascii.eqb c sep); simpl; [done|].
  intros H. by rewrite (IH H).
Qed.

(** The empty string occurs in every string. *)
Lemma contains_empty s : Py.contains EmptyString s = true.
Proof. destruct s; reflexivity. Qed.

Lemma lower_char_idemp c : Py.lower_char (Py.lower_char c) = Py.lower_char c.
Proof. destruct c as [[] [] [] [] [] [] [] []]; reflexivity. Qed.

Lemma lower_idemp s : Py.lower (Py.lower s) = Py.lower s.
Proof.
  induction s as [|c s IH]; simpl; [done|].
  by rewrite lower_char_idemp, IH.
Qed.
End strings.

(** ** Dictionaries built pair by pair *)

Section dicts.
Implicit Types (d : gmap string string) (pairs : list (string * string)).

Lemma foldl_insert_lookup pairs d k :
  foldl (λ d kv, <[kv.1 := kv.2]> d) d pairs !! k =
    match last (filter (λ kv, kv.1 = k) pairs) with
    | Some kv => Some kv.2
    | None => d !! k
    end.
Proof.
  revert d. induction pairs as [|[k' v] pairs IH]; intros d; simpl; [done|].
  rewrite IH, filter_cons. simpl.
  destruct (decide (k' = k)) as [->|Hne].
  - rewrite last_cons.
    destruct (last (filter _ pairs)); [done|].
    by rewrite lookup_insert_eq.
  - destruct (last (filter _ pairs)); [done|].
    by rewrite lookup_insert_ne.
Qed.

(** In [dict_of], the last pair with a given key decides its value. *)
Lemma dict_of_lookup pairs k :
  dict_of pairs !! k = snd <$> last (filter (λ kv, kv.1 = k) pairs).
Proof.
  unfold dict_of. rewrite foldl_insert_lookup.
  destruct (last _); [done|]. by rewrite lookup_empty.
Qed.

Lemma parse_header_lines_fold lines d :
  parse_header_lines lines d =
    foldl (λ d kv, <[kv.1 := kv.2]> d) d
      (header_of_line <$> header_block lines).
Proof.
  revert d. induction lines as [|line rest IH]; intros d; simpl; [done|].
  destruct (String.eqb line _); simpl; [done|].
  rewrite IH. unfold header_of_line.
  by destruct (Py.partition ":" line) as [[name found] value].
Qed.

Lemma header_block_stop lines rest :
  header_block (header_block lines ++ String Py.CR EmptyString :: rest)
  = header_block lines.
Proof.
  induction lines as [|line lines IH]; simpl; [done|].
  destruct (String.eqb line _) eqn:E; simpl; [done|].
  by rewrite E, IH.
Qed.

Lemma header_of_line_lower line : Py.lower (header_of_line line).1 = (header_of_line line).1.
Proof.
  unfold header_of_line.
  destruct (Py.partition ":" line) as [[name found] value]. simpl.
  apply lower_idemp.
Qed.

Lemma partition_parts sep s :
  let '(before, found, after) := Py.partition sep s in
  s = before +:+ found +:+ after ∧ Py.has_char sep before = false.
Proof.
  induction s as [|c s IH]; simpl; [done|].
  destruct (Ascii.eqb c sep) eqn:E; simpl.
  - apply Ascii.eqb_eq in E as ->. done.
  - destruct (Py.partition sep s) as [[b f] a]. destruct IH as [-> IH].
    simpl. by rewrite E, IH.
Qed.

(** An entry with an ['='] gives the comprehension its two fields. *)
Lemma split_cookie_fields e :
  Py.has_char "=" e = true →
  ∃ more, Py.split "=" e
          = (cookie_fields e).1 :: (cookie_fields e).2 :: more.
Proof.
  intros H. unfold cookie_fields. rewrite split_partition.
  pose proof (partition_found "=" e) as Hf. rewrite H in Hf.
  destruct (Py.partition "=" e) as [[name found] rest]. simpl in Hf.
  subst found. rewrite split_partition.
  destruct (Py.partition "=" rest) as [[value f] a]. simpl. eauto.
Qed.

Lemma split_no_separator sep s :
  Py.has_char sep s = false → Py.split sep s = [s].
Proof.
  intros H. rewrite split_partition. by rewrite partition_absent.
Qed.

Lemma cookie_dict_fold entries d :
  Forall (λ e, Py.has_char "=" e = true) entries →
  cookie_dict entries d =
    Ok (foldl (λ d kv, <[kv.1 := kv.2]> d) d (cookie_fields <$> entries)).
Proof.
  intros H. revert d. induction H as [|e entries He _ IH]; intros d; [done|].
  simpl. destruct (split_cookie_fields e He) as [more ->]. apply IH.
Qed.

(** An entry without ['='] has no second field to index. *)
Lemma cookie_dict_index_error entries d :
  Exists (λ e, Py.has_char "=" e = false) entries →
  cookie_dict entries d = Raise IndexError.
Proof.
  intros H. revert d. induction entries as [|e entries IH]; intros d.
  - by apply Exists_nil in H.
  - simpl. destruct (Py.has_char "=" e) eqn:He.
    + destruct (split_cookie_fields e He) as [more ->].
      apply IH. apply Exists_cons in H as [H|H]; [congruence|done].
    + by rewrite split_no_separator.
Qed.

Lemma cookie_fields_once e :
  Py.has_char "=" (Py.partition "=" e).2 = false →
  cookie_fields e = cookie_split_once e.
Proof.
  unfold cookie_fields, cookie_split_once.
  destruct (Py.partition "=" e) as [[name found] rest]. simpl.
  intros H. by rewrite partition_absent.
Qed.
End dicts.

(** ** Paths and extensions *)

Section paths.
Implicit Types (s p : string) (c : ascii).

Lemma rfind_from_cases c s i found :
  Py.rfind_from c s i found = found
  ∨ (i ≤ Py.rfind_from c s i found
     ∧ String.get (Z.to_nat (Py.rfind_from c s i found - i)) s = Some c).
Proof.
  revert i found. induction s as [|a s IH]; intros i found; simpl; [by left|].
  destruct (IH (i + 1) (if Ascii.eqb a c then i else found)) as [H|[H1 H2]].
  - rewrite H. destruct (Ascii.eqb a c) eqn:E; [|by left].
    right. split; [lia|]. rewrite Z.sub_diag. simpl.
    by apply Ascii.eqb_eq in E as ->.
  - right. split; [lia|].
    set (r := Py.rfind_from _ _ _ _) in *.
    replace (Z.to_nat (r - i)) with (S (Z.to_nat (r - (i + 1)))) by lia.
    exact H2.
Qed.

Lemma rfind_cases c s :
  Py.rfind c s = -1
  ∨ (0 ≤ Py.rfind c s ∧ String.get (Z.to_nat (Py.rfind c s)) s = Some c).
Proof.
  unfold Py.rfind.
  destruct (rfind_from_cases c s 0 (-1)) as [->|[H1 H2]]; [by left|].
  right. by rewrite Z.sub_0_r in H2.
Qed.

Lemma rfind_lower_bound c s : -1 ≤ Py.rfind c s.
Proof. destruct (rfind_cases c s) as [->|[? _]]; lia. Qed.

Lemma substring_all s : String.substring 0 (String.length s) s = s.
Proof. induction s as [|a s IH]; simpl; [done|]. by rewrite IH. Qed.

Lemma has_char_get c s k : String.get k s = Some c → Py.has_char c s = true.
Proof.
  revert k. induction s as [|a s IH]; intros k; simpl; [done|].
  destruct k as [|k].
  - intros [= ->]. by rewrite Ascii.eqb_refl.
  - intros H. rewrite (IH _ H). apply orb_true_r.
Qed.

Lemma has_char_tail c s n k :
  String.get k s = Some c → (n ≤ k)%nat →
  Py.has_char c (String.substring n (String.length s - n) s) = true.
Proof.
  revert n k. induction s as [|a s IH]; intros n k; [done|].
  destruct n as [|n].
  - intros H _. rewrite Nat.sub_0_r, substring_all.
    apply (has_char_get c (String a s) k H).
  - destruct k as [|k]; [lia|]. simpl. intros H Hle. apply (IH n k H). lia.
Qed.

(** A last component without a dot has no extension. *)
Lemma extension_without_dot p :
  Py.has_char OsPath.EXTSEP (basename p) = false → extension_of p = EmptyString.
Proof.
  unfold basename, extension_of, OsPath.splitext, Py.slice_from. intros H.
  pose proof (rfind_lower_bound OsPath.SEP p) as Hsep.
  destruct (Z.ltb_spec (Py.rfind OsPath.SEP p) (Py.rfind OsPath.EXTSEP p))
    as [Hlt|_]; [|done].
  exfalso.
  destruct (rfind_cases OsPath.EXTSEP p) as [E|[_ Hget]]; [lia|].
  rewrite (has_char_tail _ _ _ _ Hget) in H; [done|lia].
Qed.
End paths.

(** ** One pass of the loop, case by case *)

Section serve_cases.
Variables (document_root : string) (fs : filesystem) (request : string)
  (l : locals).

Lemma parse_cookies_raises header e :
  parse_cookies header = Raise e → e = IndexError.
Proof.
  unfold parse_cookies. generalize (∅ : gmap string string).
  induction (Py.split ";" header) as [|x entries IH]; intros d; simpl; [done|].
  destruct (Py.split "=" x) as [|name [|value more]]; try congruence. apply IH.
Qed.

(** No mapping to print: the pass ends right after the request count. *)
Lemma serve_cookies_unreadable :
  cookies_read l request = None →
  serve document_root fs request l =
    ([Print (VInt (REQUESTS l + 1))],
     Uncaught (match parse_headers request !! "cookie" with
               | Some _ => IndexError
               | None => UnboundLocalError "cookies"
               end)).
Proof.
  unfold cookies_read, serve. intros H. unfold_M. simpl.
  destruct (parse_headers request !! "cookie") as [h|]; simpl.
  - destruct (parse_cookies h) as [c|e] eqn:E; [done|]. simpl.
    by rewrite (parse_cookies_raises _ _ E).
  - by rewrite H.
Qed.

Lemma serve_bad_start_line c :
  cookies_read l request = Some c →
  three_tokens request = None →
  serve document_root fs request l =
    ([Print (VInt (REQUESTS l + 1)); Print (VDict c)], Uncaught ValueError).
Proof.
  unfold cookies_read, three_tokens, serve. intros Hc Ht.
  unfold_M. simpl.
  destruct (parse_headers request !! "cookie") as [h|]; simpl.
  - destruct (parse_cookies h) as [c'|]; [|done]. injection Hc as ->. simpl.
    by destruct (Py.split_ws (start_line request)) as [|? [|? [|? [|]]]].
  - rewrite Hc. simpl.
    by destruct (Py.split_ws (start_line request)) as [|? [|? [|? [|]]]].
Qed.

Lemma serve_no_agent c tokens :
  cookies_read l request = Some c →
  three_tokens request = Some tokens →
  parse_headers request !! "user-agent" = None →
  serve document_root fs request l =
    ([Print (VInt (REQUESTS l + 1)); Print (VDict c);
   Print (VDict (parse_headers request))],
     Uncaught (KeyError "user-agent")).
Proof.
  unfold cookies_read, three_tokens, serve.
  intros Hc Ht Hua. unfold_M. simpl. rewrite Hua.
  destruct (Py.split_ws (start_line request)) as [|? [|? [|? [|]]]];
    try discriminate.
  destruct (parse_headers request !! "cookie") as [h|]; simpl.
  - destruct (parse_cookies h) as [c'|]; [|done]. by injection Hc as ->.
  - by rewrite Hc.
Qed.

Lemma three_tokens_length :
  three_tokens request = None
  ↔ length (Py.split_ws (start_line request)) ≠ 3%nat.
Proof.
  unfold three_tokens.
  destruct (Py.split_ws (start_line request)) as [|? [|? [|? [|]]]];
    simpl; split; (done || lia).
Qed.
End serve_cases.

Lemma respond_cases fs headers path extension l :
  respond_result path fs l (respond fs headers path extension l).
Proof.
  destruct (headers !! "accept") as [accepts|] eqn:Ha.
  - destruct (is_content_type_negotiable accepts extension) eqn:Hn.
    + rewrite (respond_negotiated _ _ _ _ _ _ Ha Hn).
      destruct (Py.has_char Py.NUL path) eqn:Hz; [by constructor|].
      destruct (fs path) as [[contents|]|] eqn:Hp; by constructor.
    + rewrite (respond_refused _ _ _ _ _ _ Ha Hn). constructor.
  - rewrite (respond_no_accept _ _ _ _ _ Ha). constructor.
Qed.

(** ** Header parsing *)

(** C6: [parse_headers] reads the lines after the start line up to the
    first line that is a lone carriage return; it splits each at its first
    colon, lower-cases the name and strips the value, and a later line
    replaces an earlier one of the same name.  The request of the
    specification's example parses to host = x, accept = text/plain. *)
Theorem C6_parse_headers :
  parse_headers Sample.spec_example
    = <["host" := "x"]> (<["accept" := "text/plain"]> ∅)
  ∧ (∀ request,
       parse_headers request
       = dict_of (header_of_line
                    <$> header_block (tail (Py.split Py.LF request))))
  ∧ (∀ line,
       let '(name, found, value) := Py.partition ":" line in
       header_of_line line = (Py.lower name, Py.strip value)
       ∧ line = name +:+ found +:+ value
       ∧ Py.has_char ":" name = false)
  ∧ (∀ pairs k,
       dict_of pairs !! k = snd <$> last (filter (λ kv, kv.1 = k) pairs))
  ∧ (∀ request k, is_Some (parse_headers request !! k) → Py.lower k = k)
  ∧ (∀ lines rest,
       parse_header_lines
         (header_block lines ++ String Py.CR EmptyString :: rest) ∅
       = parse_header_lines lines ∅).
Proof.
  split; [by vm_compute|].
  split; [intros; apply parse_header_lines_fold|].
  split.
  { intros line. pose proof (partition_parts ":" line) as H.
    unfold header_of_line.
    by destruct (Py.partition ":" line) as [[name found] value]. }
  split; [apply dict_of_lookup|].
  split.
  - intros request k [v Hv]. unfold parse_headers in Hv.
    rewrite parse_header_lines_fold in Hv.
    fold (dict_of (header_of_line
                     <$> header_block (tail (Py.split Py.LF request)))) in Hv.
    rewrite dict_of_lookup in Hv.
    destruct (last _) as [kv|] eqn:E; [|done].
    apply last_Some_elem_of, list_elem_of_filter in E as [<- Hin].
    apply list_elem_of_fmap in Hin as [line [-> _]].
    apply header_of_line_lower.
  - intros lines rest.
    by rewrite !parse_header_lines_fold, header_block_stop.
Qed.

(** ** Cookies *)

(** C5, as stated, fails: for the header value [sid=dG9rZW4=; seen=1] the
    script stores [dG9rZW4] under [sid], the text up to the second ['='],
    where a split on the first ['='] alone keeps the remainder
    [dG9rZW4=]. *)
Lemma C5_value_stops_at_second_equals :
  parse_headers Sample.token_cookie !! "cookie" = Some "sid=dG9rZW4=; seen=1"
  ∧ (∃ c, cookies_read initial Sample.token_cookie = Some c
          ∧ c !! "sid" = Some "dG9rZW4")
  ∧ cookies_split_once "sid=dG9rZW4=; seen=1" !! "sid" = Some "dG9rZW4=".
Proof.
  split; [by vm_compute|]. split; [|by vm_compute].
  eexists. split; by vm_compute.
Qed.

(** C5, amended: when every [;]-separated entry of the cookie header has
    an ['='], the mapping holds, for each entry in order, its text before
    the first ['='] as the name and its text between the first and the
    second ['='] as the value; it is what [print cookies] shows.  The value
    is the whole remainder of the entry exactly when the remainder has no
    further ['=']. *)
Theorem C5_cookie_mapping document_root fs request l header :
  parse_headers request !! "cookie" = Some header →
  Forall (λ e, Py.has_char "=" e = true) (Py.split ";" header) →
  let c := dict_of (cookie_fields <$> Py.split ";" header) in
  parse_cookies header = Ok c
  ∧ (∃ t o, serve document_root fs request l
            = (Print (VInt (REQUESTS l + 1)) :: Print (VDict c) :: t, o))
  ∧ (Forall (λ e, Py.has_char "=" (Py.partition "=" e).2 = false)
       (Py.split ";" header) →
     c = cookies_split_once header).
Proof.
  intros Hh Hall c.
  assert (Hp : parse_cookies header = Ok c) by by apply cookie_dict_fold.
  assert (Hc : cookies_read l request = Some c).
  { unfold cookies_read. by rewrite Hh, Hp. }
  split; [done|]. split.
  - destruct (three_tokens request) as [[[method uri] version]|] eqn:Ht.
    + destruct (parse_headers request !! "user-agent") as [agent|] eqn:Hua.
      * rewrite (serve_reaches_respond _ _ _ _ _ _ _ _ _ Ht Hua Hc). simpl.
        destruct (respond _ _ _ _ _) as [t o]. simpl. eauto.
      * rewrite (serve_no_agent _ _ _ _ _ _ Hc Ht Hua). eauto.
    + rewrite (serve_bad_start_line _ _ _ _ _ Hc Ht). eauto.
  - intros Honce. unfold c, cookies_split_once. f_equal.
    apply Forall_fmap_ext_1. eapply Forall_impl; [exact Honce|].
    intros e He. by apply cookie_fields_once.
Qed.

Lemma C5_cookie_mapping_witness :
  parse_cookies "seen=1; lang=en"
  = Ok (dict_of (cookie_fields <$> Py.split ";" "seen=1; lang=en")).
Proof.
  refine (proj1 (C5_cookie_mapping "/srv" Sample.disk
                   (Sample.request_of
                      ["GET /a.txt HTTP/1.1"; "Cookie: seen=1; lang=en"])
                   initial "seen=1; lang=en" _ _)).
  - vm_compute. reflexivity.
  - simpl. repeat constructor.
Defined.

(** ** Answers *)

Section answers.
Implicit Types (t : list event) (o : outcome unit).

Lemma app_empty_r s : s +:+ EmptyString = s.
Proof.
  induction s as [|a s IH]; [done|].
  change (String a (s +:+ EmptyString) = String a s). by rewrite IH.
Qed.

Lemma response_of_closing t o :
  response_of (t ++ match o with Normal _ _ => [Close] | Uncaught _ => [] end)
  = response_of t.
Proof.
  induction t as [|e t IH]; simpl.
  - by destruct o.
  - destruct e; simpl; by rewrite ?IH.
Qed.

Lemma not_found_not_406 : NOT_FOUND ≠ NOT_ACCEPTABLE.
Proof. by vm_compute. Qed.

Lemma template_not_406 headers content :
  RESPONSE_TEMPLATE headers content ≠ NOT_ACCEPTABLE.
Proof. unfold RESPONSE_TEMPLATE, NOT_ACCEPTABLE. simpl. discriminate. Qed.

Lemma negotiable_iff accepts extension :
  is_content_type_negotiable accepts extension = true
  ↔ accepts = "*/*" ∨ Py.contains extension accepts = true.
Proof.
  unfold is_content_type_negotiable.
  rewrite orb_true_iff, String.eqb_eq. tauto.
Qed.

Lemma not_acceptable_iff headers extension :
  not_acceptable headers extension
  ↔ match headers !! "accept" with
    | None => True
    | Some accepts => is_content_type_negotiable accepts extension = false
    end.
Proof.
  unfold not_acceptable. destruct (headers !! "accept") as [accepts|].
  - split.
    + intros [|[a [[= <-] [Hne Hc]]]]; [done|].
      apply not_true_is_false. rewrite negotiable_iff. intros [|]; congruence.
    + intros H. right. exists accepts. split; [done|].
      apply not_true_iff_false in H. rewrite negotiable_iff in H.
      split; [tauto|]. apply not_true_is_false. tauto.
  - split; [done|]. by left.
Qed.

(** What the client gets is what [respond] sent. *)
Lemma serve_answer document_root fs request l method uri version agent c :
  three_tokens request = Some (method, uri, version) →
  parse_headers request !! "user-agent" = Some agent →
  cookies_read l request = Some c →
  response_of (serve document_root fs request l).1
  = response_of
      (respond fs (parse_headers request) (document_root +:+ uri)
         (extension_of (document_root +:+ uri))
         {| REQUESTS := REQUESTS l + 1; cookies := Some c |}).1.
Proof.
  intros Ht Hua Hc.
  rewrite (serve_reaches_respond _ _ _ _ _ _ _ _ _ Ht Hua Hc). simpl.
  destruct (respond _ _ _ _ _) as [t o]. simpl. apply response_of_closing.
Qed.

(** An exception never comes after a write to the connection. *)
Lemma serve_uncaught_silent document_root fs request l t e :
  serve document_root fs request l = (t, Uncaught e) →
  Forall (λ ev, is_send ev = false) t.
Proof.
  destruct (cookies_read l request) as [c|] eqn:Hc.
  2: { rewrite serve_cookies_unreadable by done. intros [= <- _].
       by repeat constructor. }
  destruct (three_tokens request) as [[[method uri] version]|] eqn:Ht.
  2: { rewrite (serve_bad_start_line _ _ _ _ _ Hc Ht). intros [= <- _].
       by repeat constructor. }
  destruct (parse_headers request !! "user-agent") as [agent|] eqn:Hua.
  2: { rewrite (serve_no_agent _ _ _ _ _ _ Hc Ht Hua). intros [= <- _].
       by repeat constructor. }
  rewrite (serve_reaches_respond _ _ _ _ _ _ _ _ _ Ht Hua Hc). simpl.
  destruct (respond_cases fs (parse_headers request) (document_root +:+ uri)
              (extension_of (document_root +:+ uri))
              {| REQUESTS := REQUESTS l + 1; cookies := Some c |});
    intros [= <- ?]; try discriminate; by repeat constructor.
Qed.

Lemma silent_response t :
  Forall (λ ev, is_send ev = false) t → response_of t = EmptyString.
Proof.
  induction 1 as [|ev t Hev _ IH]; simpl; [done|].
  destruct ev; simpl in *; done.
Qed.
End answers.

(** ** The 200 answer *)

(** Where [print cookies] finds a mapping, a well-formed request for an
    existing file is answered with the file: the status line, the byte
    count as [Content-Length], a blank line, the bytes. *)
Lemma serve_existing_file
    document_root fs request l method uri version agent c accepts contents :
  three_tokens request = Some (method, uri, version) →
  parse_headers request !! "user-agent" = Some agent →
  cookies_read l request = Some c →
  parse_headers request !! "accept" = Some accepts →
  is_content_type_negotiable accepts (extension_of (document_root +:+ uri))
    = true →
  Py.has_char Py.NUL (document_root +:+ uri) = false →
  fs (document_root +:+ uri) = Some (File contents) →
  serve document_root fs request l =
    ([Print (VInt (REQUESTS l + 1)); Print (VDict c);
      Print (VDict (parse_headers request)); Print (VStr agent);
      Stat (document_root +:+ uri); Open (document_root +:+ uri);
      SendAll (RESPONSE_TEMPLATE
                 ("Content-Length: " +:+ Py.str_of_nat (String.length contents))
                 contents);
      Close],
     Normal tt {| REQUESTS := REQUESTS l + 1; cookies := Some c |}).
Proof.
  intros Ht Hua Hc Ha Hn Hz Hf.
  rewrite (serve_reaches_respond _ _ _ _ _ _ _ _ _ Ht Hua Hc). simpl.
  rewrite (respond_negotiated _ _ _ _ _ _ Ha Hn), Hz, Hf. reflexivity.
Qed.

(** The decimal [Content-Length] reads back as the length. *)
Lemma str_of_nat_reads_back n :
  Nat.of_uint <$> NilEmpty.uint_of_string (Py.str_of_nat n) = Some n.
Proof.
  unfold Py.str_of_nat. rewrite NilEmpty.usu. simpl.
  by rewrite DecimalNat.Unsigned.of_to.
Qed.

(** C1: the first request of a client that sends no cookie, well-formed
    and for an existing file, is not answered at all: [print cookies]
    raises before anything is written to the connection.  Where
    [print cookies] does find a mapping, the request is answered as the
    claim says: 200, the byte count of the file in decimal as
    [Content-Length], and the bytes of the file as the body; for an empty
    file, [Content-Length: 0] and no body. *)
Theorem C1_plain_request_unanswered :
  (three_tokens Sample.plain_get = Some ("GET", "/a.txt", "HTTP/1.1")
   ∧ parse_headers Sample.plain_get !! "user-agent" = Some "curl"
   ∧ parse_headers Sample.plain_get !! "accept" = Some "*/*"
   ∧ parse_headers Sample.plain_get !! "cookie" = None
   ∧ Sample.disk "/srv/a.txt" = Some (File "hello")
   ∧ serve "/srv" Sample.disk Sample.plain_get initial
     = ([Print (VInt 1)], Uncaught (UnboundLocalError "cookies")))
  ∧ (∀ document_root fs request l method uri version agent c accepts contents,
       three_tokens request = Some (method, uri, version) →
       parse_headers request !! "user-agent" = Some agent →
       cookies_read l request = Some c →
       parse_headers request !! "accept" = Some accepts →
       is_content_type_negotiable accepts
         (extension_of (document_root +:+ uri)) = true →
       Py.has_char Py.NUL (document_root +:+ uri) = false →
       fs (document_root +:+ uri) = Some (File contents) →
       response_of (serve document_root fs request l).1
       = RESPONSE_TEMPLATE
           ("Content-Length: " +:+ Py.str_of_nat (String.length contents))
           contents
       ∧ Nat.of_uint
           <$> NilEmpty.uint_of_string (Py.str_of_nat (String.length contents))
         = Some (String.length contents))
  ∧ response_of
      (serve "/srv" Sample.disk (Sample.get "/empty" "*/*") initial).1
    = RESPONSE_TEMPLATE "Content-Length: 0" EmptyString.
Proof.
  split; [repeat split; by vm_compute|]. split; [|by vm_compute].
  intros document_root fs request l method uri version agent c accepts
    contents Ht Hua Hc Ha Hn Hz Hf.
  rewrite (serve_existing_file _ _ _ _ _ _ _ _ _ _ _ Ht Hua Hc Ha Hn Hz Hf).
  simpl. split; [apply app_empty_r|apply str_of_nat_reads_back].
Qed.

(** ** The 406 answer *)

(** C2, as stated, fails: a request without [Accept] that also lacks
    [User-Agent] gets no 406; [print headers['user-agent']] raises
    first. *)
Lemma C2_no_406_without_user_agent :
  parse_headers Sample.no_agent_no_accept !! "accept" = None
  ∧ ∃ t, serve "/srv" Sample.disk Sample.no_agent_no_accept initial
         = (t, Uncaught (KeyError "user-agent"))
         ∧ response_of t = EmptyString.
Proof. split; [by vm_compute|]. eexists. split; by vm_compute. Qed.

(** Past the four [print]s, a refusal is the bare 406 line and nothing
    else happens in the pass. *)
Lemma serve_refused document_root fs request l method uri version agent c :
  three_tokens request = Some (method, uri, version) →
  parse_headers request !! "user-agent" = Some agent →
  cookies_read l request = Some c →
  not_acceptable (parse_headers request)
    (extension_of (document_root +:+ uri)) →
  serve document_root fs request l =
    ([Print (VInt (REQUESTS l + 1)); Print (VDict c);
      Print (VDict (parse_headers request)); Print (VStr agent);
      SendAll NOT_ACCEPTABLE; Close],
     Normal tt {| REQUESTS := REQUESTS l + 1; cookies := Some c |}).
Proof.
  intros Ht Hua Hc Hna. apply not_acceptable_iff in Hna.
  rewrite (serve_reaches_respond _ _ _ _ _ _ _ _ _ Ht Hua Hc). simpl.
  destruct (parse_headers request !! "accept") as [accepts|] eqn:Ha.
  - by rewrite (respond_refused _ _ _ _ _ _ Ha Hna).
  - by rewrite (respond_no_accept _ _ _ _ _ Ha).
Qed.

Lemma serve_406_iff document_root fs request l method uri version agent c :
  three_tokens request = Some (method, uri, version) →
  parse_headers request !! "user-agent" = Some agent →
  cookies_read l request = Some c →
  response_of (serve document_root fs request l).1 = NOT_ACCEPTABLE
  ↔ not_acceptable (parse_headers request)
      (extension_of (document_root +:+ uri)).
Proof.
  intros Ht Hua Hc. split.
  - intros Hr. apply not_acceptable_iff.
    destruct (parse_headers request !! "accept") as [accepts|] eqn:Ha; [|done].
    apply not_true_is_false. intros Hn.
    rewrite (serve_answer _ _ _ _ _ _ _ _ _ Ht Hua Hc) in Hr.
    rewrite (respond_negotiated _ _ _ _ _ _ Ha Hn) in Hr.
    destruct (Py.has_char Py.NUL (document_root +:+ uri)); [done|].
    destruct (fs (document_root +:+ uri)) as [[contents|]|];
      simpl in Hr; rewrite ?app_empty_r in Hr.
    + by apply template_not_406 in Hr.
    + done.
    + by apply not_found_not_406 in Hr.
  - intros Hna. by rewrite (serve_refused _ _ _ _ _ _ _ _ _ Ht Hua Hc Hna).
Qed.

(** A 406 is never sent to a request whose [Accept] passes. *)
Lemma serve_406_only_if document_root fs request l :
  response_of (serve document_root fs request l).1 = NOT_ACCEPTABLE →
  ∃ method uri version,
    three_tokens request = Some (method, uri, version)
    ∧ not_acceptable (parse_headers request)
        (extension_of (document_root +:+ uri)).
Proof.
  destruct (cookies_read l request) as [c|] eqn:Hc.
  2: { by rewrite serve_cookies_unreadable. }
  destruct (three_tokens request) as [[[method uri] version]|] eqn:Ht.
  2: { by rewrite (serve_bad_start_line _ _ _ _ _ Hc Ht). }
  destruct (parse_headers request !! "user-agent") as [agent|] eqn:Hua.
  2: { by rewrite (serve_no_agent _ _ _ _ _ _ Hc Ht Hua). }
  intros Hr. exists method, uri, version. split; [done|].
  by apply (serve_406_iff _ fs _ _ _ _ _ _ _ Ht Hua Hc).
Qed.

(** C2, amended: for a request with a three-token start line and a
    [User-Agent] header, handled where [print cookies] finds a mapping,
    the answer is the bare 406 line exactly when [Accept] is absent or is
    neither the wildcard nor contains the extension; the 406 is sent
    without any file-system access, whatever the target names.
    Negotiation succeeds exactly for the wildcard or a value containing
    the extension.  For every request whatsoever, a 406 answer implies
    that condition. *)
Theorem C2_not_acceptable_iff
    document_root fs request l method uri version agent c :
  three_tokens request = Some (method, uri, version) →
  parse_headers request !! "user-agent" = Some agent →
  cookies_read l request = Some c →
  (response_of (serve document_root fs request l).1 = NOT_ACCEPTABLE
   ↔ not_acceptable (parse_headers request)
       (extension_of (document_root +:+ uri)))
  ∧ (not_acceptable (parse_headers request)
       (extension_of (document_root +:+ uri)) →
     serve document_root fs request l =
       ([Print (VInt (REQUESTS l + 1)); Print (VDict c);
         Print (VDict (parse_headers request)); Print (VStr agent);
         SendAll NOT_ACCEPTABLE; Close],
        Normal tt {| REQUESTS := REQUESTS l + 1; cookies := Some c |}))
  ∧ (∀ accepts,
       is_content_type_negotiable accepts
         (extension_of (document_root +:+ uri)) = true
       ↔ accepts = "*/*"
         ∨ Py.contains (extension_of (document_root +:+ uri)) accepts = true)
  ∧ (∀ root' fs' request' l',
       response_of (serve root' fs' request' l').1 = NOT_ACCEPTABLE →
       ∃ method' uri' version',
         three_tokens request' = Some (method', uri', version')
         ∧ not_acceptable (parse_headers request')
             (extension_of (root' +:+ uri'))).
Proof.
  intros Ht Hua Hc.
  split; [exact (serve_406_iff _ _ _ _ _ _ _ _ _ Ht Hua Hc)|].
  split; [exact (serve_refused _ _ _ _ _ _ _ _ _ Ht Hua Hc)|].
  split; [intros; apply negotiable_iff|].
  intros. by eapply serve_406_only_if.
Qed.

Lemma C2_not_acceptable_iff_witness :
  response_of
    (serve "/srv" Sample.disk (Sample.get "/a.txt" "application/json")
       initial).1
  = NOT_ACCEPTABLE
  ↔ not_acceptable (parse_headers (Sample.get "/a.txt" "application/json"))
      (extension_of ("/srv" +:+ "/a.txt")).
Proof.
  refine (proj1 (C2_not_acceptable_iff "/srv" Sample.disk
                   (Sample.get "/a.txt" "application/json") initial
                   "GET" "/a.txt" "HTTP/1.1" "curl" {["seen" := "1"]} _ _ _));
    by vm_compute.
Defined.

(** ** The 404 answer and the shapes of answers *)

Lemma silent_no_send t data :
  Forall (λ ev, is_send ev = false) t → SendAll data ∉ t.
Proof.
  intros Hall Hin. rewrite Forall_forall in Hall. by apply Hall in Hin.
Qed.

(** Whatever is written to the connection has one of three shapes. *)
Lemma serve_sends_shapes document_root fs request l data :
  SendAll data ∈ (serve document_root fs request l).1 → answer_shape data.
Proof.
  destruct (serve document_root fs request l) as [t [[] l'|e]] eqn:Hs.
  2: { intros Hin. simpl in Hin.
       by apply (silent_no_send _ _ (serve_uncaught_silent _ _ _ _ _ _ Hs))
         in Hin. }
  revert Hs.
  destruct (cookies_read l request) as [c|] eqn:Hc.
  2: { by rewrite serve_cookies_unreadable. }
  destruct (three_tokens request) as [[[method uri] version]|] eqn:Ht.
  2: { by rewrite (serve_bad_start_line _ _ _ _ _ Hc Ht). }
  destruct (parse_headers request !! "user-agent") as [agent|] eqn:Hua.
  2: { by rewrite (serve_no_agent _ _ _ _ _ _ Hc Ht Hua). }
  rewrite (serve_reaches_respond _ _ _ _ _ _ _ _ _ Ht Hua Hc). simpl.
  unfold answer_shape.
  destruct (respond_cases fs (parse_headers request) (document_root +:+ uri)
              (extension_of (document_root +:+ uri))
              {| REQUESTS := REQUESTS l + 1; cookies := Some c |})
    as [|Hz|Hz Hf|Hz Hf|contents Hz Hf];
    intros [= <- <-]; simpl; rewrite !elem_of_cons, elem_of_nil;
    intros Hin; repeat (destruct Hin as [Hin|Hin]; try discriminate);
    try done; injection Hin as ->; eauto.
Qed.

(** C3, as stated, fails: a request with an acceptable [Accept] for a
    path that does not exist gets no 404 when it lacks [User-Agent]; the
    pass ends with a [KeyError] and nothing is sent. *)
Lemma C3_no_404_without_user_agent :
  three_tokens Sample.no_agent_missing_file
    = Some ("GET", "/missing", "HTTP/1.1")
  ∧ parse_headers Sample.no_agent_missing_file !! "accept" = Some "*/*"
  ∧ is_content_type_negotiable "*/*" (extension_of "/srv/missing") = true
  ∧ Sample.disk "/srv/missing" = None
  ∧ ∃ t, serve "/srv" Sample.disk Sample.no_agent_missing_file initial
         = (t, Uncaught (KeyError "user-agent"))
         ∧ response_of t = EmptyString.
Proof.
  repeat split; try by vm_compute. eexists. split; by vm_compute.
Qed.

(** C3, amended: for a request with a three-token start line and a
    [User-Agent] header, handled where [print cookies] finds a mapping,
    whose [Accept] passes negotiation and whose resolved path, free of NUL
    bytes, does not exist, the answer is exactly the bare 404 line.  For
    every request, whatever is sent is the 406 line, the 404 line or a 200
    answer. *)
Theorem C3_not_found
    document_root fs request l method uri version agent c accepts :
  three_tokens request = Some (method, uri, version) →
  parse_headers request !! "user-agent" = Some agent →
  cookies_read l request = Some c →
  parse_headers request !! "accept" = Some accepts →
  is_content_type_negotiable accepts (extension_of (document_root +:+ uri))
    = true →
  Py.has_char Py.NUL (document_root +:+ uri) = false →
  fs (document_root +:+ uri) = None →
  serve document_root fs request l =
    ([Print (VInt (REQUESTS l + 1)); Print (VDict c);
      Print (VDict (parse_headers request)); Print (VStr agent);
      Stat (document_root +:+ uri); SendAll NOT_FOUND; Close],
     Normal tt {| REQUESTS := REQUESTS l + 1; cookies := Some c |})
  ∧ response_of (serve document_root fs request l).1 = NOT_FOUND
  ∧ (∀ root' fs' request' l' data,
       SendAll data ∈ (serve root' fs' request' l').1 → answer_shape data).
Proof.
  intros Ht Hua Hc Ha Hn Hz Hf.
  assert (Hs : serve document_root fs request l =
    ([Print (VInt (REQUESTS l + 1)); Print (VDict c);
      Print (VDict (parse_headers request)); Print (VStr agent);
      Stat (document_root +:+ uri); SendAll NOT_FOUND; Close],
     Normal tt {| REQUESTS := REQUESTS l + 1; cookies := Some c |})).
  { rewrite (serve_reaches_respond _ _ _ _ _ _ _ _ _ Ht Hua Hc). simpl.
    by rewrite (respond_negotiated _ _ _ _ _ _ Ha Hn), Hz, Hf. }
  split; [exact Hs|]. split; [by rewrite Hs|].
  intros. by eapply serve_sends_shapes.
Qed.

Lemma C3_not_found_witness :
  response_of
    (serve "/srv" Sample.disk (Sample.get "/missing.html" "text/html")
       initial).1
  = NOT_FOUND.
Proof.
  refine (proj1 (proj2 (C3_not_found "/srv" Sample.disk
                          (Sample.get "/missing.html" "text/html") initial
                          "GET" "/missing.html" "HTTP/1.1" "curl"
                          {["seen" := "1"]} "text/html" _ _ _ _ _ _ _)));
    by vm_compute.
Defined.

(** ** Malformed requests *)

(** C4: a request whose start line does not have exactly three tokens, or
    that lacks [User-Agent], ends the pass with an uncaught exception
    before anything is sent, and with it the loop: later connections are
    never served.  Past [print cookies] the exception is a [ValueError]
    for the start line and a [KeyError] for the header. *)
Theorem C4_malformed_request_is_fatal document_root fs request l :
  length (Py.split_ws (start_line request)) ≠ 3%nat
  ∨ parse_headers request !! "user-agent" = None →
  ∃ t e,
    serve document_root fs request l = (t, Uncaught e)
    ∧ Forall (λ ev, is_send ev = false) t
    ∧ response_of t = EmptyString
    ∧ (∀ later,
         main document_root ((fs, request) :: later) l
         = (t, Uncaught e))
    ∧ (is_Some (cookies_read l request) →
       e = if bool_decide (length (Py.split_ws (start_line request)) = 3%nat)
           then KeyError "user-agent" else ValueError).
Proof.
  intros Hbad.
  assert (∃ t e, serve document_root fs request l = (t, Uncaught e)
                 ∧ (is_Some (cookies_read l request) →
                    e = if bool_decide
                             (length (Py.split_ws (start_line request)) = 3%nat)
                        then KeyError "user-agent" else ValueError))
    as (t & e & Hs & He).
  { destruct (cookies_read l request) as [c|] eqn:Hc.
    2: { rewrite serve_cookies_unreadable by done.
         do 2 eexists. split; [done|]. by intros [? ?]. }
    destruct (three_tokens request) as [tokens|] eqn:Ht.
    - assert (Hlen : length (Py.split_ws (start_line request)) = 3%nat).
      { destruct (decide (length (Py.split_ws (start_line request)) = 3%nat))
          as [|Hne]; [done|].
        apply three_tokens_length in Hne. congruence. }
      destruct Hbad as [Hbad|Hua]; [done|].
      rewrite (serve_no_agent _ _ _ _ _ _ Hc Ht Hua).
      do 2 eexists. split; [done|]. intros _. by rewrite bool_decide_eq_true_2.
    - rewrite (serve_bad_start_line _ _ _ _ _ Hc Ht).
      do 2 eexists. split; [done|]. intros _.
      apply three_tokens_length in Ht. by rewrite bool_decide_eq_false_2. }
  exists t, e. split; [done|].
  pose proof (serve_uncaught_silent _ _ _ _ _ _ Hs) as Hsilent.
  split; [done|]. split; [by apply silent_response|]. split; [|done].
  intros later. simpl. unfold_M. by rewrite Hs.
Qed.

Lemma C4_malformed_request_is_fatal_witness :
  ∃ t e,
    serve "/srv" Sample.disk Sample.two_tokens initial = (t, Uncaught e)
    ∧ Forall (λ ev, is_send ev = false) t
    ∧ response_of t = EmptyString
    ∧ (∀ later,
         main "/srv" ((Sample.disk, Sample.two_tokens) :: later)
           initial
         = (t, Uncaught e))
    ∧ (is_Some (cookies_read initial Sample.two_tokens) →
       e = if bool_decide
               (length (Py.split_ws (start_line Sample.two_tokens)) = 3%nat)
           then KeyError "user-agent" else ValueError).
Proof.
  apply (C4_malformed_request_is_fatal "/srv" Sample.disk Sample.two_tokens
           initial).
  left. vm_compute. lia.
Defined.

(** ** The resolved path *)

Lemma respond_fs_ext fs fs' headers path extension l :
  fs' path = fs path →
  respond fs' headers path extension l = respond fs headers path extension l.
Proof.
  intros H. unfold respond, os_path_exists, open_read. by rewrite H.
Qed.

(** The locals pass through [respond] untouched and do not steer it. *)
Lemma respond_locals fs headers path extension l l' :
  respond fs headers path extension l' =
    let '(t, o) := respond fs headers path extension l in
    (t, match o with
        | Normal _ _ => Normal tt l'
        | Uncaught e => Uncaught e
        end).
Proof.
  destruct (headers !! "accept") as [accepts|] eqn:Ha.
  - destruct (is_content_type_negotiable accepts extension) eqn:Hn.
    + rewrite !(respond_negotiated _ _ _ _ _ _ Ha Hn).
      destruct (Py.has_char Py.NUL path); [done|].
      by destruct (fs path) as [[contents|]|].
    + by rewrite !(respond_refused _ _ _ _ _ _ Ha Hn).
  - by rewrite !(respond_no_accept _ _ _ _ _ Ha).
Qed.

Lemma serve_fs_ext document_root fs fs' request l method uri version :
  three_tokens request = Some (method, uri, version) →
  fs' (document_root +:+ uri) = fs (document_root +:+ uri) →
  serve document_root fs' request l = serve document_root fs request l.
Proof.
  intros Ht Hfs.
  destruct (cookies_read l request) as [c|] eqn:Hc.
  2: { by rewrite !serve_cookies_unreadable. }
  destruct (parse_headers request !! "user-agent") as [agent|] eqn:Hua.
  2: { by rewrite !(serve_no_agent _ _ _ _ _ _ Hc Ht Hua). }
  rewrite !(serve_reaches_respond _ _ _ _ _ _ _ _ _ Ht Hua Hc). simpl.
  by rewrite (respond_fs_ext _ _ _ _ _ _ Hfs).
Qed.

(** C7: the path the script looks up and opens is the document root
    followed by the target exactly as it stands in the start line: every
    file-system access of the pass names that string, the pass depends on
    the file system at that string only, and a file found there is served
    whatever the target looks like, [..] included. *)
Theorem C7_path_is_root_then_target
    document_root fs request l method uri version :
  three_tokens request = Some (method, uri, version) →
  Forall (touches_only (document_root +:+ uri))
    (serve document_root fs request l).1
  ∧ (∀ fs', fs' (document_root +:+ uri) = fs (document_root +:+ uri) →
            serve document_root fs' request l
            = serve document_root fs request l)
  ∧ (∀ agent c accepts contents,
       parse_headers request !! "user-agent" = Some agent →
       cookies_read l request = Some c →
       parse_headers request !! "accept" = Some accepts →
       is_content_type_negotiable accepts
         (extension_of (document_root +:+ uri)) = true →
       Py.has_char Py.NUL (document_root +:+ uri) = false →
       fs (document_root +:+ uri) = Some (File contents) →
       response_of (serve document_root fs request l).1
       = RESPONSE_TEMPLATE
           ("Content-Length: " +:+ Py.str_of_nat (String.length contents))
           contents).
Proof.
  intros Ht. split; [|split].
  - destruct (cookies_read l request) as [c|] eqn:Hc.
    2: { rewrite serve_cookies_unreadable by done. by repeat constructor. }
    destruct (parse_headers request !! "user-agent") as [agent|] eqn:Hua.
    2: { rewrite (serve_no_agent _ _ _ _ _ _ Hc Ht Hua).
         by repeat constructor. }
    rewrite (serve_reaches_respond _ _ _ _ _ _ _ _ _ Ht Hua Hc). simpl.
    destruct (respond_cases fs (parse_headers request) (document_root +:+ uri)
                (extension_of (document_root +:+ uri))
                {| REQUESTS := REQUESTS l + 1; cookies := Some c |});
      simpl; by repeat constructor.
  - intros fs' Hfs. by eapply serve_fs_ext.
  - intros agent c accepts contents Hua Hc Ha Hn Hz Hf.
    rewrite (serve_existing_file _ _ _ _ _ _ _ _ _ _ _ Ht Hua Hc Ha Hn Hz Hf).
    simpl. apply app_empty_r.
Qed.

Lemma C7_path_is_root_then_target_witness :
  Forall (touches_only ("/srv" +:+ "/../secret.txt"))
    (serve "/srv" Sample.disk (Sample.get "/../secret.txt" "*/*") initial).1
  ∧ response_of
      (serve "/srv" Sample.disk (Sample.get "/../secret.txt" "*/*") initial).1
    = RESPONSE_TEMPLATE "Content-Length: 3" "key".
Proof.
  pose proof (C7_path_is_root_then_target "/srv" Sample.disk
                (Sample.get "/../secret.txt" "*/*") initial
                "GET" "/../secret.txt" "HTTP/1.1" eq_refl) as [H1 [_ H3]].
  split; [exact H1|].
  exact (H3 "curl" {["seen" := "1"]} "*/*" "key"
           eq_refl eq_refl eq_refl eq_refl eq_refl eq_refl).
Defined.

(** ** The unbound [cookies] *)

(** C8: a request without a [cookie] header assigns nothing to [cookies],
    and [print cookies] reads the variable all the same.  Where the
    variable is still unbound the pass dies with an [UnboundLocalError]
    right after printing the request count, before anything is sent;
    where an earlier request bound it, that old mapping is printed and
    kept.  A process that has only met requests without a [cookie] header
    dies on the first of them. *)
Theorem C8_cookies_read_while_unbound document_root fs request l :
  parse_headers request !! "cookie" = None →
  (cookies l = None →
   serve document_root fs request l
   = ([Print (VInt (REQUESTS l + 1))], Uncaught (UnboundLocalError "cookies")))
  ∧ (∀ c, cookies l = Some c →
          ∃ t o, serve document_root fs request l
                 = (Print (VInt (REQUESTS l + 1)) :: Print (VDict c) :: t, o)
                 ∧ ∀ l', o = Normal tt l' → cookies l' = Some c)
  ∧ (∀ connections,
       connections ≠ [] →
       Forall (λ fr, parse_headers fr.2 !! "cookie" = None) connections →
       main document_root connections initial
       = ([Print (VInt 1)], Uncaught (UnboundLocalError "cookies"))).
Proof.
  intros Hno.
  assert (Hread : ∀ l0 r, parse_headers r !! "cookie" = None →
                          cookies_read l0 r = cookies l0).
  { intros l0 r H. unfold cookies_read. by rewrite H. }
  split; [|split].
  - intros Hunbound.
    rewrite serve_cookies_unreadable by by rewrite Hread.
    by rewrite Hno.
  - intros c Hbound.
    assert (Hc : cookies_read l request = Some c) by by rewrite Hread.
    destruct (three_tokens request) as [[[method uri] version]|] eqn:Ht.
    2: { rewrite (serve_bad_start_line _ _ _ _ _ Hc Ht).
         do 2 eexists. split; [done|]. done. }
    destruct (parse_headers request !! "user-agent") as [agent|] eqn:Hua.
    2: { rewrite (serve_no_agent _ _ _ _ _ _ Hc Ht Hua).
         do 2 eexists. split; [done|]. done. }
    rewrite (serve_reaches_respond _ _ _ _ _ _ _ _ _ Ht Hua Hc). simpl.
    destruct (respond_cases fs (parse_headers request) (document_root +:+ uri)
                (extension_of (document_root +:+ uri))
                {| REQUESTS := REQUESTS l + 1; cookies := Some c |});
      simpl; do 2 eexists; (split; [done|]); by intros l' [= <-].
  - intros [|[fs0 r] later] Hne Hall; [done|].
    apply Forall_cons in Hall as [Hr _]. simpl in Hr.
    simpl. unfold_M.
    rewrite serve_cookies_unreadable by by rewrite Hread.
    by rewrite Hr.
Qed.

Lemma C8_cookies_read_while_unbound_witness :
  serve "/srv" Sample.disk Sample.plain_get initial
  = ([Print (VInt (REQUESTS initial + 1))],
     Uncaught (UnboundLocalError "cookies")).
Proof.
  refine (proj1 (C8_cookies_read_while_unbound "/srv" Sample.disk
                   Sample.plain_get initial _) _); by vm_compute.
Defined.

(** ** Repeated requests *)

Lemma cookies_read_bound l request c n :
  cookies_read l request = Some c →
  cookies_read {| REQUESTS := n; cookies := Some c |} request = Some c.
Proof.
  unfold cookies_read. by destruct (parse_headers request !! "cookie").
Qed.

(** Past [print cookies], the answer is decided by the request, the
    document root and the file system at the resolved path. *)
Lemma serve_answer_stable document_root fs1 fs2 request l1 l2 c1 c2 :
  (∀ method uri version,
     three_tokens request = Some (method, uri, version) →
     fs2 (document_root +:+ uri) = fs1 (document_root +:+ uri)) →
  cookies_read l1 request = Some c1 →
  cookies_read l2 request = Some c2 →
  response_of (serve document_root fs2 request l2).1
  = response_of (serve document_root fs1 request l1).1.
Proof.
  intros Hfs Hc1 Hc2.
  destruct (three_tokens request) as [[[method uri] version]|] eqn:Ht.
  2: { by rewrite (serve_bad_start_line _ _ _ _ _ Hc1 Ht),
                  (serve_bad_start_line _ _ _ _ _ Hc2 Ht). }
  destruct (parse_headers request !! "user-agent") as [agent|] eqn:Hua.
  2: { by rewrite (serve_no_agent _ _ _ _ _ _ Hc1 Ht Hua),
                  (serve_no_agent _ _ _ _ _ _ Hc2 Ht Hua). }
  rewrite (serve_answer _ _ _ _ _ _ _ _ _ Ht Hua Hc1),
          (serve_answer _ _ _ _ _ _ _ _ _ Ht Hua Hc2).
  rewrite (respond_fs_ext fs1 fs2) by by eapply Hfs.
  rewrite (respond_locals _ _ _ _
             {| REQUESTS := REQUESTS l1 + 1; cookies := Some c1 |}
             {| REQUESTS := REQUESTS l2 + 1; cookies := Some c2 |}).
  by destruct (respond _ _ _ _ _).
Qed.

(** A pass that ends normally leaves [cookies] bound to what it printed. *)
Lemma serve_normal_locals document_root fs request l t l' :
  serve document_root fs request l = (t, Normal tt l') →
  ∃ c, cookies_read l request = Some c
       ∧ l' = {| REQUESTS := REQUESTS l + 1; cookies := Some c |}.
Proof.
  destruct (cookies_read l request) as [c|] eqn:Hc.
  2: { by rewrite serve_cookies_unreadable. }
  destruct (three_tokens request) as [[[method uri] version]|] eqn:Ht.
  2: { by rewrite (serve_bad_start_line _ _ _ _ _ Hc Ht). }
  destruct (parse_headers request !! "user-agent") as [agent|] eqn:Hua.
  2: { by rewrite (serve_no_agent _ _ _ _ _ _ Hc Ht Hua). }
  rewrite (serve_reaches_respond _ _ _ _ _ _ _ _ _ Ht Hua Hc). simpl.
  destruct (respond_cases fs (parse_headers request) (document_root +:+ uri)
              (extension_of (document_root +:+ uri))
              {| REQUESTS := REQUESTS l + 1; cookies := Some c |});
    intros [= _ <-]; eauto.
Qed.

(** C9: the same request sent twice in a row, with the file at the
    resolved path unchanged in between, gets the same bytes both times,
    whatever state the loop is in; the request counter changes no answer;
    and any two passes that answer the request give the same answer. *)
Theorem C9_same_request_same_answer document_root fs1 fs2 request l :
  (∀ method uri version,
     three_tokens request = Some (method, uri, version) →
     fs2 (document_root +:+ uri) = fs1 (document_root +:+ uri)) →
  (∃ r, responses document_root [(fs1, request); (fs2, request)] l = [r; r])
  ∧ (∀ n, response_of
            (serve document_root fs1 request
               {| REQUESTS := n; cookies := cookies l |}).1
          = response_of (serve document_root fs1 request l).1)
  ∧ (∀ l2 t1 t2 l1' l2',
       serve document_root fs1 request l = (t1, Normal tt l1') →
       serve document_root fs2 request l2 = (t2, Normal tt l2') →
       response_of t2 = response_of t1).
Proof.
  intros Hfs. split; [|split].
  - simpl.
    destruct (serve document_root fs1 request l) as [t1 [[] l1|e]] eqn:Hs1.
    + destruct (serve_normal_locals _ _ _ _ _ _ Hs1) as (c & Hc & ->).
      pose proof (serve_answer_stable document_root fs1 fs2 request l
                    {| REQUESTS := REQUESTS l + 1; cookies := Some c |} c c
                    Hfs Hc (cookies_read_bound _ _ _ _ Hc)) as Hsame.
      rewrite Hs1 in Hsame. simpl in Hsame.
      destruct (serve document_root fs2 request _) as [t2 o2].
      simpl in Hsame. rewrite Hsame. exists (response_of t1). by destruct o2.
    + simpl. rewrite (silent_response _ (serve_uncaught_silent _ _ _ _ _ _ Hs1)).
      eauto.
  - intros n.
    assert (Hsame : cookies_read {| REQUESTS := n; cookies := cookies l |}
                      request = cookies_read l request) by done.
    destruct (cookies_read l request) as [c|] eqn:Hc.
    + apply (serve_answer_stable _ fs1 fs1 _ _ _ c c); done.
    + by rewrite !serve_cookies_unreadable.
  - intros l2 t1 t2 l1' l2' Hs1 Hs2.
    destruct (serve_normal_locals _ _ _ _ _ _ Hs1) as (c1 & Hc1 & _).
    destruct (serve_normal_locals _ _ _ _ _ _ Hs2) as (c2 & Hc2 & _).
    pose proof (serve_answer_stable _ _ _ _ _ _ _ _ Hfs Hc1 Hc2) as Hsame.
    by rewrite Hs1, Hs2 in Hsame.
Qed.

Lemma C9_same_request_same_answer_witness :
  ∃ r, responses "/srv"
         [(Sample.disk, Sample.get "/empty" "*/*");
          (Sample.disk', Sample.get "/empty" "*/*")] initial
       = [r; r].
Proof.
  refine (proj1 (C9_same_request_same_answer "/srv" Sample.disk Sample.disk'
                   (Sample.get "/empty" "*/*") initial _)).
  intros method uri version H. vm_compute in H. injection H as <- <- <-.
  reflexivity.
Defined.

(** ** Paths without an extension *)

(** C10: when the extension extracted from the resolved path is the empty
    string (a last component without a dot is one such path; a hidden
    file, [..] and a name ending in a dot are others), the negotiation
    succeeds for every [Accept] value, the empty one included, because
    the empty string occurs in every string; a request with an [Accept]
    header for such a path is never sent the 406 line. *)
Theorem C10_no_extension_no_406
    document_root fs request l method uri version accepts :
  three_tokens request = Some (method, uri, version) →
  extension_of (document_root +:+ uri) = EmptyString →
  parse_headers request !! "accept" = Some accepts →
  (∀ value, Py.contains EmptyString value = true
            ∧ is_content_type_negotiable value EmptyString = true
            ∧ is_content_type_negotiable value
                (extension_of (document_root +:+ uri)) = true)
  ∧ Forall (λ ev, ev ≠ SendAll NOT_ACCEPTABLE)
      (serve document_root fs request l).1
  ∧ response_of (serve document_root fs request l).1 ≠ NOT_ACCEPTABLE
  ∧ (∀ p, Py.has_char OsPath.EXTSEP (basename p) = false →
          extension_of p = EmptyString).
Proof.
  intros Ht Hext Ha.
  assert (Hall : ∀ value, Py.contains EmptyString value = true
                          ∧ is_content_type_negotiable value EmptyString = true).
  { intros value. split; [apply contains_empty|].
    unfold is_content_type_negotiable. by rewrite contains_empty. }
  split.
  { intros value. rewrite Hext. destruct (Hall value). done. }
  assert (Hsent :
    Forall (λ ev, ev ≠ SendAll NOT_ACCEPTABLE)
      (serve document_root fs request l).1
    ∧ response_of (serve document_root fs request l).1 ≠ NOT_ACCEPTABLE).
  { destruct (serve document_root fs request l) as [t [[] l'|e]] eqn:Hs.
    2: { pose proof (serve_uncaught_silent _ _ _ _ _ _ Hs) as Hsilent. simpl.
         split; [|by rewrite silent_response].
         eapply Forall_impl; [exact Hsilent|]. by intros ev Hev ->. }
    revert Hs.
    destruct (cookies_read l request) as [c|] eqn:Hc.
    2: { by rewrite serve_cookies_unreadable. }
    destruct (parse_headers request !! "user-agent") as [agent|] eqn:Hua.
    2: { by rewrite (serve_no_agent _ _ _ _ _ _ Hc Ht Hua). }
    rewrite (serve_reaches_respond _ _ _ _ _ _ _ _ _ Ht Hua Hc). simpl.
    rewrite (respond_negotiated _ _ _ _ _ _ Ha) by (rewrite Hext; apply Hall).
    destruct (Py.has_char Py.NUL (document_root +:+ uri)); [done|].
    destruct (fs (document_root +:+ uri)) as [[contents|]|]; intros [= <- <-];
      simpl; rewrite ?app_empty_r.
    - split; [|apply template_not_406].
      repeat apply Forall_cons_2; try apply Forall_nil_2; discriminate.
    - split; [|apply not_found_not_406].
      repeat apply Forall_cons_2; try apply Forall_nil_2; discriminate. }
  destruct Hsent as [Hs1 Hs2].
  split; [done|]. split; [done|]. apply extension_without_dot.
Qed.

Lemma C10_no_extension_no_406_witness :
  (extension_of ("/srv" +:+ "/.htaccess") = EmptyString
   ∧ response_of
       (serve "/srv" Sample.disk (Sample.get "/.htaccess" "image/png")
          initial).1
     ≠ NOT_ACCEPTABLE)
  ∧ (extension_of ("/srv" +:+ "/..") = EmptyString
     ∧ response_of
         (serve "/srv" Sample.disk (Sample.get "/.." "image/png") initial).1
       ≠ NOT_ACCEPTABLE)
  ∧ (extension_of ("/srv" +:+ "/a.") = EmptyString
     ∧ response_of
         (serve "/srv" Sample.disk (Sample.get "/a." "image/png") initial).1
       ≠ NOT_ACCEPTABLE)
  ∧ (extension_of ("/srv" +:+ "/empty") = EmptyString
     ∧ response_of
         (serve "/srv" Sample.disk (Sample.get "/empty" "") initial).1
       ≠ NOT_ACCEPTABLE).
Proof.
  repeat split.
  - exact (proj1 (proj2 (proj2
      (C10_no_extension_no_406 "/srv" Sample.disk
         (Sample.get "/.htaccess" "image/png") initial
         "GET" "/.htaccess" "HTTP/1.1" "image/png"
         eq_refl eq_refl eq_refl)))).
  - exact (proj1 (proj2 (proj2
      (C10_no_extension_no_406 "/srv" Sample.disk
         (Sample.get "/.." "image/png") initial
         "GET" "/.." "HTTP/1.1" "image/png" eq_refl eq_refl eq_refl)))).
  - exact (proj1 (proj2 (proj2
      (C10_no_extension_no_406 "/srv" Sample.disk
         (Sample.get "/a." "image/png") initial
         "GET" "/a." "HTTP/1.1" "image/png" eq_refl eq_refl eq_refl)))).
  - exact (proj1 (proj2 (proj2
      (C10_no_extension_no_406 "/srv" Sample.disk
         (Sample.get "/empty" "") initial
         "GET" "/empty" "HTTP/1.1" "" eq_refl eq_refl eq_refl)))).
Defined.

(** ** Beyond the answers: connections, counters, faults *)

Section passes.
Implicit Types (t : list event) (o : outcome unit) (l : locals).

(** How a pass ends, with everything it did. *)
Lemma serve_normal_shape document_root fs request l t l' :
  serve document_root fs request l = (t, Normal tt l') →
  ∃ before data,
    t = before ++ [SendAll data; Close] ∧ Forall is_quiet before.
Proof.
  destruct (cookies_read l request) as [c|] eqn:Hc.
  2: { by rewrite serve_cookies_unreadable. }
  destruct (three_tokens request) as [[[method uri] version]|] eqn:Ht.
  2: { by rewrite (serve_bad_start_line _ _ _ _ _ Hc Ht). }
  destruct (parse_headers request !! "user-agent") as [agent|] eqn:Hua.
  2: { by rewrite (serve_no_agent _ _ _ _ _ _ Hc Ht Hua). }
  rewrite (serve_reaches_respond _ _ _ _ _ _ _ _ _ Ht Hua Hc). simpl.
  destruct (respond_cases fs (parse_headers request) (document_root +:+ uri)
              (extension_of (document_root +:+ uri))
              {| REQUESTS := REQUESTS l + 1; cookies := Some c |})
    as [|Hz|Hz Hf|Hz Hf|contents Hz Hf]; intros [= <- <-].
  - eexists [_; _; _; _], _. split; [done|]. by repeat constructor.
  - eexists [_; _; _; _; _], _. split; [done|]. by repeat constructor.
  - eexists [_; _; _; _; _; _], _. split; [done|]. by repeat constructor.
Qed.

Lemma serve_uncaught_quiet document_root fs request l t e :
  serve document_root fs request l = (t, Uncaught e) → Forall is_quiet t.
Proof.
  destruct (cookies_read l request) as [c|] eqn:Hc.
  2: { rewrite serve_cookies_unreadable by done. intros [= <- _].
       by repeat constructor. }
  destruct (three_tokens request) as [[[method uri] version]|] eqn:Ht.
  2: { rewrite (serve_bad_start_line _ _ _ _ _ Hc Ht). intros [= <- _].
       by repeat constructor. }
  destruct (parse_headers request !! "user-agent") as [agent|] eqn:Hua.
  2: { rewrite (serve_no_agent _ _ _ _ _ _ Hc Ht Hua). intros [= <- _].
       by repeat constructor. }
  rewrite (serve_reaches_respond _ _ _ _ _ _ _ _ _ Ht Hua Hc). simpl.
  destruct (respond_cases fs (parse_headers request) (document_root +:+ uri)
              (extension_of (document_root +:+ uri))
              {| REQUESTS := REQUESTS l + 1; cookies := Some c |});
    intros [= <- ?]; try discriminate; by repeat constructor.
Qed.

Lemma main_cons document_root fs request rest l :
  main document_root ((fs, request) :: rest) l =
    match serve document_root fs request l with
    | (t1, Normal _ l1) =>
        let '(t2, o) := main document_root rest l1 in (t1 ++ t2, o)
    | (t1, Uncaught e) => (t1, Uncaught e)
    end.
Proof.
  simpl. unfold_M.
  by destruct (serve document_root fs request l) as [t1 [[] l1|e]].
Qed.

Lemma count_quiet t :
  Forall is_quiet t →
  length (filter (λ ev, is_send ev = true) t) = 0%nat
  ∧ length (filter (λ ev, is_close ev = true) t) = 0%nat.
Proof.
  induction 1 as [|ev t [Hs Hc] _ [IH1 IH2]]; [done|].
  rewrite !filter_cons.
  destruct (decide (is_send ev = true)); [congruence|].
  destruct (decide (is_close ev = true)); [congruence|]. done.
Qed.

(** A pass that raises does so for a reason other than the unbound
    [cookies] once the variable is bound. *)
Lemma serve_bound_exception document_root fs request l t e :
  is_Some (cookies l) →
  serve document_root fs request l = (t, Uncaught e) →
  e ∈ [IndexError; ValueError; KeyError "user-agent"; TypeError; IOError].
Proof.
  intros [c0 Hbound].
  destruct (cookies_read l request) as [c|] eqn:Hc.
  2: { rewrite serve_cookies_unreadable by done. intros [= _ <-].
       unfold cookies_read in Hc.
       destruct (parse_headers request !! "cookie"); [set_solver|congruence]. }
  destruct (three_tokens request) as [[[method uri] version]|] eqn:Ht.
  2: { rewrite (serve_bad_start_line _ _ _ _ _ Hc Ht). intros [= _ <-].
       set_solver. }
  destruct (parse_headers request !! "user-agent") as [agent|] eqn:Hua.
  2: { rewrite (serve_no_agent _ _ _ _ _ _ Hc Ht Hua). intros [= _ <-].
       set_solver. }
  rewrite (serve_reaches_respond _ _ _ _ _ _ _ _ _ Ht Hua Hc). simpl.
  destruct (respond_cases fs (parse_headers request) (document_root +:+ uri)
              (extension_of (document_root +:+ uri))
              {| REQUESTS := REQUESTS l + 1; cookies := Some c |});
    intros [= _ <-]; set_solver.
Qed.
End passes.

(** X1: a run of the loop that gets through [n] connections has raised
    [REQUESTS] by [n], written exactly [n] answers and closed exactly [n]
    connections. *)
Theorem X1_main_counts document_root connections l t l' :
  main document_root connections l = (t, Normal tt l') →
  REQUESTS l' = REQUESTS l + Z.of_nat (length connections)
  ∧ length (filter (λ ev, is_send ev = true) t) = length connections
  ∧ length (filter (λ ev, is_close ev = true) t) = length connections.
Proof.
  revert l t. induction connections as [|[fs request] rest IH]; intros l t.
  - simpl. unfold_M. intros [= <- <-]. simpl. split; [lia|done].
  - rewrite main_cons.
    destruct (serve document_root fs request l) as [t1 [[] l1|e]] eqn:Hs;
      [|done].
    destruct (main document_root rest l1) as [t2 o] eqn:Hm.
    intros [= <- ->].
    destruct (IH _ _ Hm) as (Hn & Hsend & Hclose).
    destruct (serve_normal_locals _ _ _ _ _ _ Hs) as (c & _ & ->).
    destruct (serve_normal_shape _ _ _ _ _ _ Hs) as (before & data & -> & Hq).
    destruct (count_quiet _ Hq) as [Hq1 Hq2].
    simpl in Hn. rewrite !filter_app, !length_app, Hq1, Hq2, Hsend, Hclose.
    simpl. split; [lia|done].
Qed.

Lemma X1_main_counts_witness :
  length
    (filter (λ ev, is_send ev = true)
       (main "/srv"
          [(Sample.disk, Sample.get "/a.txt" "*/*");
           (Sample.disk, Sample.get "/missing" "*/*");
           (Sample.disk, Sample.get "/a.txt" "image/png")] initial).1)
  = 3%nat.
Proof.
  refine (proj1 (proj2 (X1_main_counts "/srv"
                          [(Sample.disk, Sample.get "/a.txt" "*/*");
                           (Sample.disk, Sample.get "/missing" "*/*");
                           (Sample.disk, Sample.get "/a.txt" "image/png")]
                          initial _
                          {| REQUESTS := 3;
                             cookies := Some {["seen" := "1"]} |} _))).
  by vm_compute.
Defined.

Lemma main_bound document_root connections l t o :
  is_Some (cookies l) →
  main document_root connections l = (t, o) →
  match o with
  | Normal _ l' => is_Some (cookies l')
  | Uncaught e =>
      e ∈ [IndexError; ValueError; KeyError "user-agent"; TypeError; IOError]
  end.
Proof.
  revert l t.
  induction connections as [|[fs request] rest IH]; intros l t Hbound.
  - simpl. unfold_M. by intros [= <- <-].
  - rewrite main_cons.
    destruct (serve document_root fs request l) as [t1 [[] l1|e]] eqn:Hs.
    + destruct (main document_root rest l1) as [t2 o2] eqn:Hm.
      intros [= <- <-]. apply (IH l1 t2); [|done].
      destruct (serve_normal_locals _ _ _ _ _ _ Hs) as (c & _ & ->). by eexists.
    + intros [= <- <-]. by eapply serve_bound_exception.
Qed.

(** X2: once one pass of the loop has ended normally, [cookies] is bound
    and stays bound, so no later pass ends with the [UnboundLocalError]:
    only the first request of a process can meet the unbound variable. *)
Theorem X2_unbound_only_at_first_request
    document_root fs request l t1 l1 later t o :
  serve document_root fs request l = (t1, Normal tt l1) →
  main document_root later l1 = (t, o) →
  is_Some (cookies l1)
  ∧ match o with
    | Normal _ l' => is_Some (cookies l')
    | Uncaught e => ∀ name, e ≠ UnboundLocalError name
    end.
Proof.
  intros Hs Hm.
  assert (Hbound : is_Some (cookies l1)).
  { destruct (serve_normal_locals _ _ _ _ _ _ Hs) as (c & _ & ->). by eexists. }
  split; [done|].
  pose proof (main_bound _ _ _ _ _ Hbound Hm) as H.
  destruct o as [[] l'|e]; [done|].
  intros name ->. rewrite !elem_of_cons, elem_of_nil in H.
  by destruct H as [|[|[|[|[|]]]]].
Qed.

Lemma X2_unbound_only_at_first_request_witness :
  is_Some (cookies {| REQUESTS := 1; cookies := Some {["seen" := "1"]} |}).
Proof.
  refine (proj1 (X2_unbound_only_at_first_request "/srv" Sample.disk
                   (Sample.get "/a.txt" "*/*") initial
                   (serve "/srv" Sample.disk (Sample.get "/a.txt" "*/*")
                      initial).1
                   {| REQUESTS := 1; cookies := Some {["seen" := "1"]} |}
                   [(Sample.disk, Sample.plain_get)]
                   (main "/srv" [(Sample.disk, Sample.plain_get)]
                      {| REQUESTS := 1;
                         cookies := Some {["seen" := "1"]} |}).1
                   (main "/srv" [(Sample.disk, Sample.plain_get)]
                      {| REQUESTS := 1;
                         cookies := Some {["seen" := "1"]} |}).2
                   _ _)); by vm_compute.
Defined.

(** X3: a pass that ends normally has written to the connection exactly
    once and closed it as its last act; a pass that raises has neither
    written to the connection nor closed it. *)
Theorem X3_one_answer_then_close document_root fs request l :
  match serve document_root fs request l with
  | (t, Normal _ _) =>
      ∃ before data,
        t = before ++ [SendAll data; Close] ∧ Forall is_quiet before
  | (t, Uncaught _) => Forall is_quiet t
  end.
Proof.
  destruct (serve document_root fs request l) as [t [[] l'|e]] eqn:Hs.
  - by eapply serve_normal_shape.
  - by eapply serve_uncaught_quiet.
Qed.

Lemma has_char_app c a b :
  Py.has_char c (a +:+ b) = Py.has_char c a || Py.has_char c b.
Proof.
  induction a as [|x a IH]; [done|].
  change (Py.has_char c (String x (a +:+ b))
          = Py.has_char c (String x a) || Py.has_char c b).
  simpl. by rewrite IH, orb_assoc.
Qed.

(** X4: when the resolved path names a directory and the request is
    otherwise in order, [os.path.exists] says yes, [open] raises
    [IOError], and the pass ends there: nothing is sent and the
    connection is not closed. *)
Theorem X4_directory_is_fatal
    document_root fs request l method uri version agent c accepts :
  three_tokens request = Some (method, uri, version) →
  parse_headers request !! "user-agent" = Some agent →
  cookies_read l request = Some c →
  parse_headers request !! "accept" = Some accepts →
  is_content_type_negotiable accepts (extension_of (document_root +:+ uri))
    = true →
  Py.has_char Py.NUL (document_root +:+ uri) = false →
  fs (document_root +:+ uri) = Some Directory →
  serve document_root fs request l =
    ([Print (VInt (REQUESTS l + 1)); Print (VDict c);
      Print (VDict (parse_headers request)); Print (VStr agent);
      Stat (document_root +:+ uri); Open (document_root +:+ uri)],
     Uncaught IOError)
  ∧ ∀ later,
      main document_root ((fs, request) :: later) l
      = ((serve document_root fs request l).1, Uncaught IOError).
Proof.
  intros Ht Hua Hc Ha Hn Hz Hf.
  assert (Hs : serve document_root fs request l =
    ([Print (VInt (REQUESTS l + 1)); Print (VDict c);
      Print (VDict (parse_headers request)); Print (VStr agent);
      Stat (document_root +:+ uri); Open (document_root +:+ uri)],
     Uncaught IOError)).
  { rewrite (serve_reaches_respond _ _ _ _ _ _ _ _ _ Ht Hua Hc). simpl.
    by rewrite (respond_negotiated _ _ _ _ _ _ Ha Hn), Hz, Hf. }
  split; [done|]. intros later. by rewrite main_cons, Hs.
Qed.

Lemma X4_directory_is_fatal_witness :
  (serve "/srv" Sample.disk (Sample.get "/pub" "*/*") initial).2
  = Uncaught IOError.
Proof.
  rewrite (proj1 (X4_directory_is_fatal "/srv" Sample.disk
                    (Sample.get "/pub" "*/*") initial
                    "GET" "/pub" "HTTP/1.1" "curl" {["seen" := "1"]} "*/*"
                    eq_refl eq_refl eq_refl eq_refl eq_refl eq_refl eq_refl)).
  reflexivity.
Defined.

(** X5: a NUL byte in the target of a request that passes negotiation
    makes [os.path.exists] raise [TypeError] before the file system is
    consulted; the pass ends without an answer whatever the file system
    holds. *)
Theorem X5_nul_in_target_is_fatal
    document_root fs request l method uri version agent c accepts :
  three_tokens request = Some (method, uri, version) →
  parse_headers request !! "user-agent" = Some agent →
  cookies_read l request = Some c →
  parse_headers request !! "accept" = Some accepts →
  is_content_type_negotiable accepts (extension_of (document_root +:+ uri))
    = true →
  Py.has_char Py.NUL uri = true →
  serve document_root fs request l =
    ([Print (VInt (REQUESTS l + 1)); Print (VDict c);
      Print (VDict (parse_headers request)); Print (VStr agent)],
     Uncaught TypeError).
Proof.
  intros Ht Hua Hc Ha Hn Hz.
  rewrite (serve_reaches_respond _ _ _ _ _ _ _ _ _ Ht Hua Hc). simpl.
  rewrite (respond_negotiated _ _ _ _ _ _ Ha Hn).
  by rewrite has_char_app, Hz, orb_true_r.
Qed.

Lemma X5_nul_in_target_is_fatal_witness :
  (serve "/srv" Sample.disk (Sample.get Probe.nul_target "*/*") initial).2
  = Uncaught TypeError.
Proof.
  rewrite (X5_nul_in_target_is_fatal "/srv" Sample.disk
             (Sample.get Probe.nul_target "*/*") initial
             "GET" Probe.nul_target "HTTP/1.1" "curl" {["seen" := "1"]} "*/*"
             eq_refl eq_refl eq_refl eq_refl eq_refl eq_refl).
  reflexivity.
Defined.

Lemma split_not_nil sep s : Py.split sep s ≠ [].
Proof.
  destruct s as [|c s]; simpl; [done|].
  destruct (Ascii.eqb c sep); [done|]. by destruct (Py.split sep s).
Qed.

(** Cutting a string that has a separator in the middle: the pieces of
    the left part, then the pieces of the right part. *)
Lemma split_app_sep sep a rest :
  Py.split sep (a +:+ String sep rest) = Py.split sep a ++ Py.split sep rest.
Proof.
  induction a as [|c a IH].
  - change (Py.split sep (String sep rest)
            = [EmptyString] ++ Py.split sep rest).
    simpl. by rewrite Ascii.eqb_refl.
  - change (Py.split sep (String c (a +:+ String sep rest))
            = Py.split sep (String c a) ++ Py.split sep rest).
    simpl. rewrite IH. destruct (Ascii.eqb c sep); [done|].
    destruct (Py.split sep a) eqn:E; [|done]. by apply split_not_nil in E.
Qed.

Lemma split_trailing sep s :
  last (Py.split sep (s +:+ String sep EmptyString)) = Some EmptyString.
Proof. rewrite split_app_sep. simpl. apply last_snoc. Qed.

(** X6: a [cookie] header with an entry that has no ['='] ends the pass
    with an [IndexError] right after the request count is printed, and the
    loop with it; a header value that ends in [;] always has such an
    entry, the empty one after the last [;]. *)
Theorem X6_cookie_without_equals_is_fatal
    document_root fs request l header :
  parse_headers request !! "cookie" = Some header →
  Exists (λ e, Py.has_char "=" e = false) (Py.split ";" header) →
  serve document_root fs request l
  = ([Print (VInt (REQUESTS l + 1))], Uncaught IndexError)
  ∧ (∀ later,
       main document_root ((fs, request) :: later) l
       = ([Print (VInt (REQUESTS l + 1))], Uncaught IndexError))
  ∧ (∀ value, parse_cookies (value +:+ ";") = Raise IndexError).
Proof.
  intros Hh Hbad.
  assert (Hs : serve document_root fs request l
               = ([Print (VInt (REQUESTS l + 1))], Uncaught IndexError)).
  { rewrite serve_cookies_unreadable.
    - by rewrite Hh.
    - unfold cookies_read, parse_cookies. rewrite Hh.
      by rewrite cookie_dict_index_error. }
  split; [done|]. split.
  - intros later. by rewrite main_cons, Hs.
  - intros value. apply cookie_dict_index_error.
    apply Exists_exists. exists EmptyString. split; [|done].
    apply last_Some_elem_of. apply (split_trailing ";" value).
Qed.

Lemma X6_cookie_without_equals_is_fatal_witness :
  serve "/srv" Sample.disk Probe.trailing_semicolon initial
  = ([Print (VInt (REQUESTS initial + 1))], Uncaught IndexError).
Proof.
  refine (proj1 (X6_cookie_without_equals_is_fatal "/srv" Sample.disk
                   Probe.trailing_semicolon initial "seen=1;" _ _)).
  - by vm_compute.
  - apply Exists_cons_tl, Exists_cons_hd. reflexivity.
Defined.

(** ** Beyond the example: what [parse_headers] keeps and drops *)

Section header_facts.
Implicit Types (s a rest : string) (lines : list string)
  (d : gmap string string).

Lemma rstrip_idemp s : Py.rstrip (Py.rstrip s) = Py.rstrip s.
Proof.
  induction s as [|c s IH]; [done|]. simpl.
  destruct (Py.rstrip s) as [|c' r] eqn:E.
  - destruct (Ascii.is_space c) eqn:Hc; [done|]. simpl. by rewrite Hc.
  - simpl. simpl in IH. by rewrite IH.
Qed.

Lemma lstrip_head s :
  Py.lstrip s = EmptyString
  ∨ ∃ c s', Py.lstrip s = String c s' ∧ Ascii.is_space c = false.
Proof.
  induction s as [|c s IH]; simpl; [by left|].
  destruct (Ascii.is_space c) eqn:Hc; [done|]. right. eauto.
Qed.

Lemma strip_idemp s : Py.strip (Py.strip s) = Py.strip s.
Proof.
  unfold Py.strip.
  assert (H : Py.lstrip (Py.rstrip (Py.lstrip s)) = Py.rstrip (Py.lstrip s)).
  { destruct (lstrip_head s) as [->|(c & s' & -> & Hc)]; [done|].
    assert (∃ r, Py.rstrip (String c s') = String c r) as [r ->].
    { change (Py.rstrip (String c s'))
        with (match Py.rstrip s' with
              | EmptyString =>
                  if Ascii.is_space c then EmptyString else String c EmptyString
              | String x r => String c (String x r)
              end).
      rewrite Hc. destruct (Py.rstrip s'); eauto. }
    change (Py.lstrip (String c r))
      with (if Ascii.is_space c then Py.lstrip r else String c r).
    by rewrite Hc. }
  by rewrite H, rstrip_idemp.
Qed.

Lemma lower_char_colon c :
  Ascii.eqb (Py.lower_char c) ":" = Ascii.eqb c ":".
Proof. destruct c as [[] [] [] [] [] [] [] []]; reflexivity. Qed.

Lemma has_colon_lower s : Py.has_char ":" (Py.lower s) = Py.has_char ":" s.
Proof.
  induction s as [|c s IH]; [done|]. simpl.
  by rewrite lower_char_colon, IH.
Qed.

Lemma header_of_line_clean line :
  Py.strip (header_of_line line).2 = (header_of_line line).2
  ∧ Py.has_char ":" (header_of_line line).1 = false.
Proof.
  pose proof (partition_parts ":" line) as H. unfold header_of_line.
  destruct (Py.partition ":" line) as [[name found] value]. simpl.
  destruct H as [_ H]. by rewrite strip_idemp, has_colon_lower.
Qed.

(** Every pair of the dictionary comes from a line of the header block. *)
Lemma parse_headers_origin request k v :
  parse_headers request !! k = Some v →
  ∃ line, line ∈ header_block (tail (Py.split Py.LF request))
          ∧ header_of_line line = (k, v).
Proof.
  unfold parse_headers. rewrite parse_header_lines_fold.
  fold (dict_of (header_of_line
                   <$> header_block (tail (Py.split Py.LF request)))).
  rewrite dict_of_lookup. intros H.
  destruct (last _) as [[k' v']|] eqn:E; [|done]. injection H as ->.
  apply last_Some_elem_of, list_elem_of_filter in E as [Hk Hin].
  simpl in Hk. subst k'.
  apply list_elem_of_fmap in Hin as [line [Hl Hin]]. eauto.
Qed.

Lemma foldl_insert_size (pairs : list (string * string)) d :
  (size (foldl (λ d kv, <[kv.1 := kv.2]> d) d pairs)
   ≤ size d + length pairs)%nat.
Proof.
  revert d. induction pairs as [|[k v] pairs IH]; intros d; simpl; [lia|].
  etrans; [apply IH|]. rewrite map_size_insert.
  destruct (d !! k); simpl; unfold id; lia.
Qed.

Lemma header_block_length lines :
  (length (header_block lines) ≤ length lines)%nat.
Proof.
  induction lines as [|line lines IH]; simpl; [done|].
  destruct (String.eqb line _); simpl; lia.
Qed.

Lemma header_block_app_stop lines (more : list string) :
  header_block (lines ++ String Py.CR EmptyString :: more)
  = header_block lines.
Proof.
  induction lines as [|line lines IH]; simpl; [done|].
  destruct (String.eqb line _); [done|]. by rewrite IH.
Qed.

Lemma start_line_cut a rest :
  Py.has_char Py.LF a = false → start_line (a +:+ String Py.LF rest) = a.
Proof.
  intros H. unfold start_line.
  by rewrite split_app_sep, (split_no_separator _ _ H).
Qed.

Lemma parse_headers_cut a rest :
  Py.has_char Py.LF a = false →
  parse_headers (a +:+ String Py.LF rest)
  = parse_header_lines (Py.split Py.LF rest) ∅.
Proof.
  intros H. unfold parse_headers.
  by rewrite split_app_sep, (split_no_separator _ _ H).
Qed.
End header_facts.

(** X7: the first line of the request is never read as a header: the
    dictionary is built from what follows the first LF alone, and a
    request without any LF has no headers.  The dictionary has fewer
    entries than the request has lines. *)
Theorem X7_start_line_is_no_header a rest :
  Py.has_char Py.LF a = false →
  parse_headers (a +:+ String Py.LF rest)
  = parse_header_lines (Py.split Py.LF rest) ∅
  ∧ start_line (a +:+ String Py.LF rest) = a
  ∧ parse_headers a = ∅
  ∧ (∀ request,
       (size (parse_headers request) < length (Py.split Py.LF request))%nat).
Proof.
  intros H. split; [by apply parse_headers_cut|].
  split; [by apply start_line_cut|]. split.
  - unfold parse_headers. by rewrite (split_no_separator _ _ H).
  - intros request. unfold parse_headers. rewrite parse_header_lines_fold.
    pose proof (foldl_insert_size
                  (header_of_line
                     <$> header_block (tail (Py.split Py.LF request))) ∅) as Hs.
    rewrite length_fmap, map_size_empty in Hs.
    pose proof (header_block_length (tail (Py.split Py.LF request))) as Hb.
    pose proof (split_not_nil Py.LF request) as Hne.
    destruct (Py.split Py.LF request) as [|first lines]; [done|].
    simpl in *. lia.
Qed.

Lemma X7_start_line_is_no_header_witness :
  parse_headers "Accept: */*" = ∅.
Proof.
  refine (proj1 (proj2 (proj2 (X7_start_line_is_no_header
                                 "Accept: */*" EmptyString _)))).
  reflexivity.
Defined.

(** X8: whatever the request, a header value in the dictionary has no
    white space at either end (stripping it again changes nothing) and a
    header name in the dictionary has no colon. *)
Theorem X8_header_values_stripped request k v :
  parse_headers request !! k = Some v →
  Py.strip v = v ∧ Py.has_char ":" k = false.
Proof.
  intros H. apply parse_headers_origin in H as (line & _ & Hl).
  pose proof (header_of_line_clean line) as Hc. by rewrite Hl in Hc.
Qed.

Lemma X8_header_values_stripped_witness :
  Py.strip "x" = "x" ∧ Py.has_char ":" "host" = false.
Proof.
  refine (X8_header_values_stripped Sample.spec_example "host" "x" _).
  by vm_compute.
Defined.

(** X9: every line of the header block leaves its lower-cased name in the
    dictionary, a line without any colon included: such a line is entered
    whole as a name with the empty value.  In a request whose lines end in
    a bare LF the empty line that ends the headers is entered in this
    way. *)
Theorem X9_every_header_line_is_entered request line :
  line ∈ header_block (tail (Py.split Py.LF request)) →
  is_Some (parse_headers request !! (header_of_line line).1)
  ∧ (Py.has_char ":" line = false →
     header_of_line line = (Py.lower line, EmptyString)).
Proof.
  intros Hin. split.
  - unfold parse_headers. rewrite parse_header_lines_fold.
    fold (dict_of (header_of_line
                     <$> header_block (tail (Py.split Py.LF request)))).
    rewrite dict_of_lookup. apply fmap_is_Some, last_is_Some.
    intros Hnil.
    assert (Hm : header_of_line line
                 ∈ filter (λ kv, kv.1 = (header_of_line line).1)
                     (header_of_line
                        <$> header_block (tail (Py.split Py.LF request)))).
    { apply list_elem_of_filter. split; [done|].
      apply list_elem_of_fmap. eauto. }
    rewrite Hnil in Hm. by apply elem_of_nil in Hm.
  - intros Hc. unfold header_of_line. by rewrite (partition_absent _ _ Hc).
Qed.

Lemma X9_every_header_line_is_entered_witness :
  is_Some (parse_headers Probe.bare_lf !! (header_of_line EmptyString).1).
Proof.
  refine (proj1 (X9_every_header_line_is_entered Probe.bare_lf EmptyString _)).
  vm_compute. apply list_elem_of_further, list_elem_of_here.
Defined.

(** ** What a pass does not look at *)

Lemma serve_same_lines document_root fs request request' l :
  start_line request = start_line request' →
  parse_headers request = parse_headers request' →
  serve document_root fs request l = serve document_root fs request' l.
Proof. intros H1 H2. unfold serve. by rewrite H1, H2. Qed.

Lemma serve_same_target
    document_root fs request request' l method method' uri version version' :
  three_tokens request = Some (method, uri, version) →
  three_tokens request' = Some (method', uri, version') →
  parse_headers request = parse_headers request' →
  serve document_root fs request l = serve document_root fs request' l.
Proof.
  intros Ht Ht' Hh.
  assert (Hc : cookies_read l request = cookies_read l request').
  { unfold cookies_read. by rewrite Hh. }
  destruct (cookies_read l request') as [c|] eqn:Hc'.
  2: { rewrite !serve_cookies_unreadable by done. by rewrite Hh. }
  destruct (parse_headers request' !! "user-agent") as [agent|] eqn:Hua.
  2: { rewrite (serve_no_agent _ _ _ _ _ _ Hc' Ht' Hua).
       rewrite <- Hh in Hua. rewrite (serve_no_agent _ _ _ _ _ _ Hc Ht Hua).
       by rewrite Hh. }
  rewrite (serve_reaches_respond _ _ _ _ _ _ _ _ _ Ht' Hua Hc').
  rewrite <- Hh in Hua.
  rewrite (serve_reaches_respond _ _ _ _ _ _ _ _ _ Ht Hua Hc).
  by rewrite Hh.
Qed.

(** X13: the method and the protocol version of the start line are
    unpacked and never used: two requests with the same target and the
    same lines after the start line are handled alike, event for event,
    whatever their methods and versions. *)
Theorem X13_method_and_version_unused
    document_root fs l a a' rest method method' uri version version' :
  Py.has_char Py.LF a = false →
  Py.has_char Py.LF a' = false →
  Py.split_ws a = [method; uri; version] →
  Py.split_ws a' = [method'; uri; version'] →
  serve document_root fs (a +:+ String Py.LF rest) l
  = serve document_root fs (a' +:+ String Py.LF rest) l.
Proof.
  intros Ha Ha' Hw Hw'.
  apply (serve_same_target _ _ _ _ _ method method' uri version version').
  - unfold three_tokens. by rewrite (start_line_cut _ _ Ha), Hw.
  - unfold three_tokens. by rewrite (start_line_cut _ _ Ha'), Hw'.
  - by rewrite !parse_headers_cut.
Qed.

Lemma X13_method_and_version_unused_witness :
  serve "/srv" Sample.disk (Sample.get "/a.txt" "*/*") initial
  = serve "/srv" Sample.disk Probe.delete initial.
Proof.
  exact (X13_method_and_version_unused "/srv" Sample.disk initial
           ("GET /a.txt HTTP/1.1" +:+ String Py.CR EmptyString)
           ("DELETE /a.txt SPDY/9" +:+ String Py.CR EmptyString)
           ("User-Agent: curl" +:+ Sample.CRLF +:+ "Cookie: seen=1"
              +:+ Sample.CRLF +:+ "Accept: */*" +:+ Sample.CRLF
              +:+ Sample.CRLF)
           "GET" "DELETE" "/a.txt" "HTTP/1.1" "SPDY/9"
           eq_refl eq_refl eq_refl eq_refl).
Defined.

(** X14: what follows the blank line (LF, CR, LF) is never looked at: two
    requests that agree up to and including it are handled alike, event
    for event. *)
Theorem X14_body_unused document_root fs l head body body' :
  serve document_root fs
    (head +:+ String Py.LF (String Py.CR (String Py.LF body))) l
  = serve document_root fs
      (head +:+ String Py.LF (String Py.CR (String Py.LF body'))) l.
Proof.
  assert (Hsplit : ∀ b,
    Py.split Py.LF (head +:+ String Py.LF (String Py.CR (String Py.LF b)))
    = Py.split Py.LF head
      ++ String Py.CR EmptyString :: Py.split Py.LF b).
  { intros b. rewrite split_app_sep. reflexivity. }
  apply serve_same_lines.
  - unfold start_line. rewrite !Hsplit.
    pose proof (split_not_nil Py.LF head).
    by destruct (Py.split Py.LF head).
  - unfold parse_headers. rewrite !Hsplit.
    pose proof (split_not_nil Py.LF head).
    destruct (Py.split Py.LF head) as [|first lines]; [done|]. simpl.
    by rewrite !parse_header_lines_fold, !header_block_app_stop.
Qed.

(** ** The unused [Set-Cookie] answer *)

Lemma serve_never_sets_cookie document_root fs request l :
  Forall (λ ev, ∀ content, ev ≠ SendAll (response_with_cookies content))
    (serve document_root fs request l).1.
Proof.
  apply Forall_forall. intros ev Hin content ->.
  apply serve_sends_shapes in Hin as [H|[H|[contents H]]];
    unfold response_with_cookies, RESPONSE_TEMPLATE, NOT_ACCEPTABLE,
      NOT_FOUND in H; simpl in H; discriminate.
Qed.

(** X12: [response_with_cookies] builds a 200 answer whose only header
    line is [Set-Cookie: HasVisited = 1;] and whose body is the content
    as given; no run of the loop ever sends such an answer. *)
Theorem X12_set_cookie_never_sent document_root connections l :
  Forall (λ ev, ∀ content, ev ≠ SendAll (response_with_cookies content))
    (main document_root connections l).1
  ∧ ∀ content,
      response_with_cookies content
      = "HTTP/1.1 200 OK" +:+ String Py.LF "Set-Cookie: HasVisited = 1;"
          +:+ String Py.LF (String Py.LF EmptyString) +:+ content.
Proof.
  split; [|done].
  revert l. induction connections as [|[fs request] rest IH]; intros l.
  - simpl. constructor.
  - rewrite main_cons.
    pose proof (serve_never_sets_cookie document_root fs request l) as Hs.
    destruct (serve document_root fs request l) as [t1 [[] l1|e]]; [|done].
    specialize (IH l1). destruct (main document_root rest l1) as [t2 o].
    simpl in *. by apply Forall_app.
Qed.

(** ** The negotiation as a statement about substrings *)

Section substrings.
Implicit Types (x s pre post : string).

Lemma prefix_spec x s :
  String.prefix x s = true ↔ ∃ post, s = x +:+ post.
Proof.
  revert s. induction x as [|a x IH]; intros s.
  - split; [|by destruct s]. intros _. by exists s.
  - destruct s as [|b s]; simpl.
    + split; [done|]. by intros [post H].
    + destruct (ascii_dec a b) as [->|Hne].
      * rewrite IH. split; intros [post H]; exists post.
        -- by rewrite H.
        -- change (String b s = String b (x +:+ post)) in H. congruence.
      * split; [done|]. intros [post H].
        change (String b s = String a (x +:+ post)) in H. congruence.
Qed.

(** [x in s] holds exactly when [s] is some text, then [x], then some
    text. *)
Lemma contains_spec x s :
  Py.contains x s = true ↔ ∃ pre post, s = pre +:+ x +:+ post.
Proof.
  induction s as [|c s IH].
  - change (Py.contains x EmptyString)
      with (String.prefix x EmptyString || false).
    rewrite orb_false_r, prefix_spec. split.
    + intros [post H]. by exists EmptyString, post.
    + intros (pre & post & H). destruct pre; [by exists post|done].
  - change (Py.contains x (String c s))
      with (String.prefix x (String c s) || Py.contains x s).
    rewrite orb_true_iff, prefix_spec, IH. split.
    + intros [[post H]|(pre & post & H)].
      * by exists EmptyString, post.
      * exists (String c pre), post. by rewrite H.
    + intros (pre & post & H). destruct pre as [|c' pre].
      * left. by exists post.
      * right. exists pre, post.
        change (String c s = String c' (pre +:+ x +:+ post)) in H.
        congruence.
Qed.

Lemma length_app_s x s :
  String.length (x +:+ s) = (String.length x + String.length s)%nat.
Proof.
  induction x as [|a x IH]; [done|].
  change (S (String.length (x +:+ s))
          = S (String.length x + String.length s)).
  by rewrite IH.
Qed.
End substrings.

(** X10: [is_content_type_negotiable] accepts exactly when the [Accept]
    value is the three bytes of the wildcard or can be cut into some text,
    the extension, and some text.  So an empty [Accept] value passes for
    the empty extension only, and a value shorter than the extension
    passes only if it is the wildcard. *)
Theorem X10_negotiable_means_substring :
  (∀ accepts extension,
     is_content_type_negotiable accepts extension = true
     ↔ accepts = "*/*" ∨ ∃ pre post, accepts = pre +:+ extension +:+ post)
  ∧ (∀ extension,
       is_content_type_negotiable EmptyString extension = true
       ↔ extension = EmptyString)
  ∧ (∀ accepts extension,
       (String.length accepts < String.length extension)%nat →
       accepts ≠ "*/*" →
       is_content_type_negotiable accepts extension = false).
Proof.
  assert (H : ∀ accepts extension,
    is_content_type_negotiable accepts extension = true
    ↔ accepts = "*/*" ∨ ∃ pre post, accepts = pre +:+ extension +:+ post).
  { intros. rewrite negotiable_iff, contains_spec. tauto. }
  split; [exact H|]. split.
  - intros extension. rewrite H. split.
    + intros [|(pre & post & Hcut)]; [done|].
      destruct pre; [|done]. by destruct extension.
    + intros ->. right. by exists EmptyString, EmptyString.
  - intros accepts extension Hlen Hne. apply not_true_is_false.
    rewrite H. intros [|(pre & post & ->)]; [done|].
    rewrite !length_app_s in Hlen. lia.
Qed.

(** ** The extension handed to the negotiation *)

Section extensions.
Implicit Types (s p : string) (c : ascii).

Lemma splitext_scan_cases p dotIndex filenameIndex n :
  OsPath.splitext_scan p dotIndex filenameIndex n = (p, EmptyString)
  ∨ OsPath.splitext_scan p dotIndex filenameIndex n
    = (Py.slice_to dotIndex p, Py.slice_from dotIndex p).
Proof.
  revert filenameIndex. induction n as [|n IH]; intros f; simpl; [by left|].
  destruct (f <? dotIndex); [|by left].
  destruct (bool_decide _); [apply IH|by right].
Qed.

(** A string cut at one of its characters. *)
Lemma cut_at c s k :
  String.get k s = Some c →
  s = String.substring 0 k s
        +:+ String c (String.substring (S k) (String.length s - S k) s)
  ∧ String.substring k (String.length s - k) s
    = String c (String.substring (S k) (String.length s - S k) s).
Proof.
  revert k. induction s as [|a s IH]; intros k; [done|].
  destruct k as [|k].
  - simpl. intros [= ->]. rewrite Nat.sub_0_r, substring_all. done.
  - simpl. intros H. destruct (IH k H) as [H1 H2]. split; [|done].
    change (String a s
            = String a (String.substring 0 k s
                          +:+ String c
                                (String.substring (S k)
                                   (String.length s - S k) s))).
    by rewrite <- H1.
Qed.

(** No occurrence lies behind the one [rfind] reports. *)
Lemma rfind_from_max c s i found k :
  String.get k s = Some c → i + Z.of_nat k ≤ Py.rfind_from c s i found.
Proof.
  revert i found k. induction s as [|a s IH]; intros i found k; [done|].
  destruct k as [|k]; simpl.
  - intros [= ->]. rewrite Ascii.eqb_refl.
    destruct (rfind_from_cases c s (i + 1) i) as [->|[H _]]; lia.
  - intros H. specialize (IH (i + 1) (if Ascii.eqb a c then i else found) k H).
    lia.
Qed.

Lemma has_char_index c s :
  Py.has_char c s = true → ∃ k, String.get k s = Some c.
Proof.
  induction s as [|a s IH]; simpl; [done|].
  destruct (Ascii.eqb a c) eqn:E; simpl.
  - intros _. exists 0%nat. by apply Ascii.eqb_eq in E as ->.
  - intros H. destruct (IH H) as [k Hk]. by exists (S k).
Qed.

Lemma has_char_behind c s n :
  Py.has_char c (String.substring n (String.length s - n) s) = true →
  ∃ k, (n ≤ k)%nat ∧ String.get k s = Some c.
Proof.
  revert n. induction s as [|a s IH]; intros n.
  - by destruct n.
  - destruct n as [|n].
    + rewrite Nat.sub_0_r, substring_all. intros H.
      destruct (has_char_index _ _ H) as [k Hk]. exists k. split; [lia|done].
    + simpl. intros H. destruct (IH n H) as (k & Hle & Hk).
      exists (S k). split; [lia|done].
Qed.

End extensions.

(** X11: when the extension handed to the negotiation is not empty, the
    resolved path ends in a dot followed by that extension, and the
    extension holds neither a dot nor a slash: it is what follows the last
    dot of the last path component. *)
Theorem X11_extension_follows_last_dot p :
  extension_of p ≠ EmptyString →
  ∃ stem,
    p = stem +:+ String OsPath.EXTSEP (extension_of p)
    ∧ Py.has_char OsPath.EXTSEP (extension_of p) = false
    ∧ Py.has_char OsPath.SEP (extension_of p) = false.
Proof.
  unfold extension_of, OsPath.splitext.
  pose proof (rfind_lower_bound OsPath.SEP p) as Hsep.
  destruct (Z.ltb_spec (Py.rfind OsPath.SEP p) (Py.rfind OsPath.EXTSEP p))
    as [Hlt|_]; [|done].
  destruct (splitext_scan_cases p (Py.rfind OsPath.EXTSEP p)
              (Py.rfind OsPath.SEP p + 1)
              (Z.to_nat (Py.rfind OsPath.EXTSEP p
                         - (Py.rfind OsPath.SEP p + 1)))) as [->| ->];
    [done|]. simpl.
  destruct (rfind_cases OsPath.EXTSEP p) as [E|[Hge Hget]]; [lia|].
  unfold Py.slice_from, Py.slice_to.
  destruct (cut_at _ _ _ Hget) as [Hp ->]. intros _.
  exists (String.substring 0 (Z.to_nat (Py.rfind OsPath.EXTSEP p)) p).
  split; [exact Hp|]. split; apply not_true_is_false; intros Hin.
  - apply has_char_behind in Hin as (k & Hle & Hk).
    pose proof (rfind_from_max _ _ 0 (-1) _ Hk) as Hmax.
    fold (Py.rfind OsPath.EXTSEP p) in Hmax. lia.
  - apply has_char_behind in Hin as (k & Hle & Hk).
    pose proof (rfind_from_max _ _ 0 (-1) _ Hk) as Hmax.
    fold (Py.rfind OsPath.SEP p) in Hmax. lia.
Qed.

Lemma X11_extension_follows_last_dot_witness :
  ∃ stem,
    "/srv/site.v2/a.tar.gz"
    = stem +:+ String OsPath.EXTSEP (extension_of "/srv/site.v2/a.tar.gz")
    ∧ Py.has_char OsPath.EXTSEP (extension_of "/srv/site.v2/a.tar.gz") = false
    ∧ Py.has_char OsPath.SEP (extension_of "/srv/site.v2/a.tar.gz") = false.
Proof.
  apply (X11_extension_follows_last_dot "/srv/site.v2/a.tar.gz").
  by vm_compute.
Defined.

(** ** More on cookies *)

Section cookie_facts.
Implicit Types (s e : string) (c sep : ascii) (d acc : gmap string string).

Lemma split_pieces_without c sep s :
  Py.has_char c s = false →
  Forall (λ w, Py.has_char c w = false) (Py.split sep s).
Proof.
  induction s as [|a s IH]; simpl; [by repeat constructor|].
  intros H. apply orb_false_elim in H as [Ha Hs]. specialize (IH Hs).
  destruct (Ascii.eqb a sep).
  - by constructor.
  - destruct (Py.split sep s) as [|w ws].
    + constructor; [|constructor]. simpl. by rewrite Ha.
    + apply Forall_cons in IH as [Hw Hws]. constructor; [|done].
      simpl. by rewrite Ha, Hw.
Qed.

Lemma split_pieces_clean sep s :
  Forall (λ w, Py.has_char sep w = false) (Py.split sep s).
Proof.
  induction s as [|a s IH]; simpl; [by repeat constructor|].
  destruct (Ascii.eqb a sep) eqn:E.
  - by constructor.
  - destruct (Py.split sep s) as [|w ws].
    + constructor; [|constructor]. simpl. by rewrite E.
    + apply Forall_cons in IH as [Hw Hws]. constructor; [|done].
      simpl. by rewrite E, Hw.
Qed.

(** Where a pair of the finished mapping comes from. *)
Lemma cookie_dict_origin entries acc d k v :
  cookie_dict entries acc = Ok d →
  d !! k = Some v →
  acc !! k = Some v
  ∨ ∃ e more, e ∈ entries ∧ Py.split "=" e = k :: v :: more.
Proof.
  revert acc. induction entries as [|e entries IH]; intros acc; simpl.
  - intros [= ->]. by left.
  - destruct (Py.split "=" e) as [|name [|value more]] eqn:E; try done.
    intros Hd Hk. destruct (IH _ Hd Hk) as [Hacc|(e' & more' & Hin & He')].
    + destruct (decide (name = k)) as [->|Hne].
      * rewrite lookup_insert_eq in Hacc. injection Hacc as ->.
        right. exists e, more. split; [apply list_elem_of_here|done].
      * rewrite lookup_insert_ne in Hacc by done. by left.
    + right. exists e', more'. split; [by apply list_elem_of_further|done].
Qed.

Lemma cookie_dict_size entries acc d :
  cookie_dict entries acc = Ok d →
  (size d ≤ size acc + length entries)%nat.
Proof.
  revert acc. induction entries as [|e entries IH]; intros acc; simpl.
  - intros [= ->]. lia.
  - destruct (Py.split "=" e) as [|name [|value more]]; try done.
    intros Hd. specialize (IH _ Hd). rewrite map_size_insert in IH.
    destruct (acc !! name); simpl in IH; unfold id in IH; lia.
Qed.
End cookie_facts.

(** X15: in a cookie mapping the script has built, no name and no value
    holds an ['='] or a [;], and the mapping has at most as many entries
    as the header value has [;]-separated parts. *)
Theorem X15_cookie_pairs_are_clean header d k v :
  parse_cookies header = Ok d →
  d !! k = Some v →
  Py.has_char "=" k = false ∧ Py.has_char ";" k = false
  ∧ Py.has_char "=" v = false ∧ Py.has_char ";" v = false
  ∧ (size d ≤ length (Py.split ";" header))%nat.
Proof.
  intros Hd Hk. unfold parse_cookies in Hd.
  pose proof (cookie_dict_size _ _ _ Hd) as Hsize.
  rewrite map_size_empty in Hsize.
  destruct (cookie_dict_origin _ _ _ _ _ Hd Hk)
    as [Hacc|(e & more & Hin & He)]; [by rewrite lookup_empty in Hacc|].
  pose proof (split_pieces_clean ";" header) as Hsemi.
  rewrite Forall_forall in Hsemi. specialize (Hsemi e Hin).
  pose proof (split_pieces_clean "=" e) as Heq.
  pose proof (split_pieces_without ";" "=" e Hsemi) as Hsub.
  rewrite He in Heq, Hsub.
  apply Forall_cons in Heq as [Hk1 Heq]. apply Forall_cons in Heq as [Hv1 _].
  apply Forall_cons in Hsub as [Hk2 Hsub].
  apply Forall_cons in Hsub as [Hv2 _]. done.
Qed.

Lemma X15_cookie_pairs_are_clean_witness :
  Py.has_char "=" "sid" = false ∧ Py.has_char ";" "sid" = false
  ∧ Py.has_char "=" "dG9rZW4" = false ∧ Py.has_char ";" "dG9rZW4" = false
  ∧ (size (<[" seen" := "1"]> ({["sid" := "dG9rZW4"]} : gmap string string))
     ≤ length (Py.split ";" "sid=dG9rZW4=; seen=1"))%nat.
Proof.
  refine (X15_cookie_pairs_are_clean "sid=dG9rZW4=; seen=1"
            (<[" seen" := "1"]> {["sid" := "dG9rZW4"]}) "sid" "dG9rZW4" _ _);
    by vm_compute.
Defined.

(** X16: a pass that ends normally on a request with a [cookie] header
    leaves [cookies] bound to the mapping of that header alone, whatever
    was bound before; a following request without a [cookie] header has
    that mapping printed in its own pass. *)
Theorem X16_cookies_outlive_their_request
    document_root fs fs' request request' l t l1 header :
  serve document_root fs request l = (t, Normal tt l1) →
  parse_headers request !! "cookie" = Some header →
  parse_headers request' !! "cookie" = None →
  ∃ d, parse_cookies header = Ok d
       ∧ l1 = {| REQUESTS := REQUESTS l + 1; cookies := Some d |}
       ∧ ∃ t' o,
           serve document_root fs' request' l1
           = (Print (VInt (REQUESTS l + 2)) :: Print (VDict d) :: t', o).
Proof.
  intros Hs Hh Hno.
  destruct (serve_normal_locals _ _ _ _ _ _ Hs) as (d & Hd & ->).
  exists d. unfold cookies_read in Hd. rewrite Hh in Hd.
  destruct (parse_cookies header) as [d'|] eqn:Hp; [|done].
  injection Hd as ->. split; [done|]. split; [done|].
  assert (Hc : cookies_read
                 {| REQUESTS := REQUESTS l + 1; cookies := Some d |} request'
               = Some d).
  { unfold cookies_read. by rewrite Hno. }
  replace (REQUESTS l + 2) with (REQUESTS l + 1 + 1) by lia.
  destruct (three_tokens request') as [[[method uri] version]|] eqn:Ht.
  2: { rewrite (serve_bad_start_line _ _ _ _ _ Hc Ht). simpl. eauto. }
  destruct (parse_headers request' !! "user-agent") as [agent|] eqn:Hua.
  2: { rewrite (serve_no_agent _ _ _ _ _ _ Hc Ht Hua). simpl. eauto. }
  rewrite (serve_reaches_respond _ _ _ _ _ _ _ _ _ Ht Hua Hc). simpl.
  destruct (respond _ _ _ _ _) as [t' o]. simpl. eauto.
Qed.

Lemma X16_cookies_outlive_their_request_witness :
  ∃ d, parse_cookies "seen=1" = Ok d
       ∧ {| REQUESTS := 1; cookies := Some {["seen" := "1"]} |}
         = {| REQUESTS := REQUESTS initial + 1; cookies := Some d |}
       ∧ ∃ t' o,
           serve "/srv" Sample.disk Sample.plain_get
             {| REQUESTS := 1; cookies := Some {["seen" := "1"]} |}
           = (Print (VInt (REQUESTS initial + 2)) :: Print (VDict d) :: t', o).
Proof.
  refine (X16_cookies_outlive_their_request "/srv" Sample.disk Sample.disk
            (Sample.get "/a.txt" "*/*") Sample.plain_get initial
            (serve "/srv" Sample.disk (Sample.get "/a.txt" "*/*") initial).1
            {| REQUESTS := 1; cookies := Some {["seen" := "1"]} |}
            "seen=1" _ _ _); by vm_compute.
Defined.

(** ** Hidden files *)

Section dotfiles.
Implicit Types (a b p : string) (c : ascii).

Lemma get_app_r a b k :
  String.get (String.length a + k) (a +:+ b) = String.get k b.
Proof. induction a as [|x a IH]; [done|]. exact IH. Qed.

Lemma get_app_l a b k :
  (k < String.length a)%nat → String.get k (a +:+ b) = String.get k a.
Proof.
  revert k. induction a as [|x a IH]; intros k; simpl; [lia|].
  destruct k as [|k]; [done|]. intros H. apply IH. lia.
Qed.

Lemma only_char_get c a k :
  only_char c a = true → (k < String.length a)%nat →
  String.get k a = Some c.
Proof.
  revert k. induction a as [|x a IH]; intros k; simpl; [lia|].
  intros H. apply andb_true_iff in H as [Hx Ha].
  apply Ascii.eqb_eq in Hx as ->.
  destruct k as [|k]; [done|]. intros Hk. apply IH; [done|lia].
Qed.

Lemma splitext_scan_dots p dotIndex filenameIndex n :
  (∀ j, filenameIndex ≤ j < dotIndex →
        Py.char_at j p = Some OsPath.EXTSEP) →
  OsPath.splitext_scan p dotIndex filenameIndex n = (p, EmptyString).
Proof.
  revert filenameIndex. induction n as [|n IH]; intros f H; simpl; [done|].
  destruct (Z.ltb_spec f dotIndex) as [Hlt|_]; [|done].
  rewrite bool_decide_eq_true_2 by (apply H; lia).
  apply IH. intros j Hj. apply H. lia.
Qed.
End dotfiles.

(** X17: a path whose last component is a run of dots followed by text
    without a dot (a hidden file such as [.htaccess], or [..]) has the
    empty extension, since [splitext] skips leading dots; such a path
    therefore passes the negotiation with every [Accept] value. *)
Theorem X17_hidden_file_has_no_extension dir dots name :
  dir = EmptyString ∨ (∃ q, dir = q +:+ "/") →
  only_char OsPath.EXTSEP dots = true →
  Py.has_char OsPath.EXTSEP name = false →
  extension_of (dir +:+ dots +:+ name) = EmptyString
  ∧ ∀ accepts,
      is_content_type_negotiable accepts
        (extension_of (dir +:+ dots +:+ name)) = true.
Proof.
  intros Hdir Hdots Hname.
  assert (Hext : extension_of (dir +:+ dots +:+ name) = EmptyString).
  { set (p := dir +:+ dots +:+ name).
    unfold extension_of, OsPath.splitext.
    destruct (Z.ltb_spec (Py.rfind OsPath.SEP p) (Py.rfind OsPath.EXTSEP p))
      as [Hlt|_]; [|done].
    rewrite splitext_scan_dots; [done|]. intros j Hj.
    assert (Hsep : Z.of_nat (String.length dir) - 1 ≤ Py.rfind OsPath.SEP p).
    { destruct Hdir as [->|[q ->]].
      - pose proof (rfind_lower_bound OsPath.SEP p). simpl. lia.
      - assert (Hg : String.get (String.length q) p = Some OsPath.SEP).
        { unfold p.
          replace (String.length q) with (String.length q + 0)%nat by lia.
          change ((q +:+ "/") +:+ dots +:+ name)
            with ((q +:+ "/") +:+ (dots +:+ name)).
          assert (Hassoc : ∀ x y z, (x +:+ y) +:+ z = x +:+ (y +:+ z)).
          { intros x y z. induction x as [|a x IH]; [done|].
            change (String a ((x +:+ y) +:+ z) = String a (x +:+ (y +:+ z))).
            by rewrite IH. }
          rewrite Hassoc, get_app_r. done. }
        pose proof (rfind_from_max _ _ 0 (-1) _ Hg) as Hmax.
        fold (Py.rfind OsPath.SEP p) in Hmax.
        rewrite length_app_s. simpl. lia. }
    assert (Hdot : Py.rfind OsPath.EXTSEP p
                   < Z.of_nat (String.length dir + String.length dots)).
    { destruct (rfind_cases OsPath.EXTSEP p) as [E|[Hge Hget]]; [lia|].
      destruct (Z.lt_ge_cases (Py.rfind OsPath.EXTSEP p)
                  (Z.of_nat (String.length dir + String.length dots)))
        as [|Hbig]; [done|]. exfalso.
      replace (Z.to_nat (Py.rfind OsPath.EXTSEP p))
        with (String.length dir
              + (String.length dots
                 + (Z.to_nat (Py.rfind OsPath.EXTSEP p)
                    - (String.length dir + String.length dots))))%nat
        in Hget by lia.
      unfold p in Hget. rewrite !get_app_r in Hget.
      apply has_char_get in Hget. congruence. }
    unfold Py.char_at.
    replace (Z.to_nat j)
      with (String.length dir + (Z.to_nat j - String.length dir))%nat by lia.
    unfold p. rewrite get_app_r, get_app_l by lia.
    apply only_char_get; [done|lia]. }
  split; [done|]. intros accepts. rewrite Hext.
  unfold is_content_type_negotiable. by rewrite contains_empty.
Qed.

Lemma X17_hidden_file_has_no_extension_witness :
  extension_of ("/srv/" +:+ "." +:+ "htaccess") = EmptyString
  ∧ ∀ accepts,
      is_content_type_negotiable accepts
        (extension_of ("/srv/" +:+ "." +:+ "htaccess")) = true.
Proof.
  apply (X17_hidden_file_has_no_extension "/srv/" "." "htaccess").
  - right. by exists "/srv".
  - reflexivity.
  - reflexivity.
Defined.
